(** * ASVspoof2019-LA protocol script: a shallow embedding

    The development follows [protocols/ASVspoof2019-LA.py].  The script reads
    three protocol tables, enriches every row with the header data of the
    audio file it names, and writes one CSV file.

    Layout:
    - [PyStr]    the [str] operations the script uses ([in], [replace],
                 [startswith], [endswith]) and POSIX [os.path.join];
    - [PyFloat]  Python's [int / int] and [round(x, 2)] on binary64 values,
                 written out on integers;
    - [Series]   a row as an ordered list of labelled values;
    - [Script]   the script itself, in a monad of console output, written
                 files and raised exceptions, over an explicit file system;
    - [Obs]      the notions the properties are stated with;
    - [Examples], [More] concrete file systems and records;
    - [PyStrFacts], [SeriesFacts], [PyFloatFacts], [ScriptFacts], [Claims],
      [Extras]   the properties.

    The libraries the script calls are taken at their behaviour:
    [pd.read_csv] hands over one record per data line, the cells of the
    columns Speaker, ID, UN and Attack typed as it infers them (text,
    integer, float, boolean, or the fill value NaN) and the text of the
    fifth field passed through the converter;
    [parallel_apply(..., axis=1)] raises a ValueError on a frame without
    rows and otherwise maps the row function over the rows and joins the
    results by position (the interleaving of the workers' console output is
    not modelled: output is listed in row order), an exception raised in a
    row function ends the run; [torchaudio.info] answers from the file
    header or raises; [pd.DataFrame(records)] stores the integers of a
    column as floats when the column has no text and some float or fill
    value. *)

From Stdlib Require Import ZArith QArith String Ascii List Bool Lia Permutation.
Import ListNotations.

Local Open Scope list_scope.
Local Open Scope string_scope.

(** ** Python [str] operations *)

Module PyStr.

(** [s.startswith(pre)]. *)
Fixpoint startswith (s pre : string) {struct pre} : bool :=
  match pre with
  | EmptyString => true
  | String a pre' =>
      match s with
      | EmptyString => false
      | String b s' => Ascii.eqb a b && startswith s' pre'
      end
  end.

(** [s.endswith(suf)]: some tail of [s] is [suf]. *)
Fixpoint endswith (s suf : string) : bool :=
  (s =? suf) ||
  match s with
  | EmptyString => false
  | String _ s' => endswith s' suf
  end.

(** [pat in s]: [pat] starts at some position of [s]. *)
Fixpoint str_in (pat s : string) : bool :=
  startswith s pat ||
  match s with
  | EmptyString => false
  | String _ s' => str_in pat s'
  end.

(** [s.replace(old, new)] scans [s] from the left and replaces every
    occurrence of [old] that does not overlap an earlier one.  [skip]
    counts the characters of a matched occurrence still to be passed.
    (For an empty [old] Python puts [new] before every character and at
    the end.) *)
Fixpoint replace_from (skip : nat) (old new s : string) : string :=
  match s with
  | EmptyString => EmptyString
  | String c s' =>
      match skip with
      | S k => replace_from k old new s'
      | O =>
          if startswith s old
          then new ++ replace_from (String.length old - 1) old new s'
          else String c (replace_from 0 old new s')
      end
  end.

Fixpoint intersperse (new s : string) : string :=
  match s with
  | EmptyString => new
  | String c s' => new ++ String c (intersperse new s')
  end.

Definition replace (s old new : string) : string :=
  match old with
  | EmptyString => intersperse new s
  | _ => replace_from 0 old new s
  end.

(** One step of [posixpath.join]: a component that starts with the
    separator restarts the path. *)
Definition join2 (path b : string) : string :=
  if startswith b "/" then b
  else if (path =? "") || endswith path "/" then path ++ b
  else path ++ "/" ++ b.

(** [os.path.join(a, *p)]. *)
Definition os_path_join (a : string) (p : list string) : string :=
  fold_left join2 p a.

End PyStr.

(** ** Exceptions and the result of a call *)

Inductive exn : Type :=
| KeyError            (* a label absent from a row or from the frame *)
| TypeError           (* ['T_' in x] for an [x] that is no [str] *)
| UnboundLocalError   (* a local variable read before any assignment *)
| ZeroDivisionError
| OverflowError
| ValueError          (* [parallel_apply] on a frame without rows *)
| ParserError         (* [pd.read_csv] gave up on the file *)
| RuntimeError.       (* [torchaudio.info] gave up on the file *)

Inductive result (A : Type) : Type :=
| Ok (a : A)
| Raise (e : exn).
Arguments Ok {A} a.
Arguments Raise {A} e.

(** ** Python floats *)

Module PyFloat.

Local Open Scope Z_scope.

(** A finite binary64 value: [(-1)^neg * man * 2^ex], with
    [2^52 <= man < 2^53] and [-1074 <= ex <= 971] for a normal number,
    [man < 2^52] and [ex = -1074] for a subnormal one or a zero. *)
Record double : Type := mk { neg : bool; man : Z; ex : Z }.

Definition emin : Z := -1074.
Definition emax : Z := 971.

(** The integer nearest to [num / den], ties to the even one
    ([0 <= num], [0 < den]). *)
Definition round_half_even (num den : Z) : Z :=
  let q := num / den in
  let r := num mod den in
  if 2 * r <? den then q
  else if den <? 2 * r then q + 1
  else if Z.even q then q else q + 1.

(** [a / (b * 2^e)] as a fraction of integers. *)
Definition scaled (a b e : Z) : Z * Z :=
  if 0 <=? e then (a, b * 2 ^ e) else (a * 2 ^ (- e), b).

(** The binary64 value nearest to [a / b] ([0 <= a], [0 < b]), ties to
    even; a quotient beyond the largest finite value is an
    [OverflowError], one below the smallest subnormal becomes a zero. *)
Definition nearest (sign : bool) (a b : Z) : result double :=
  if a =? 0 then Ok (mk sign 0 emin)
  else
    let e0 := Z.log2 a - Z.log2 b - 52 in
    let '(n0, d0) := scaled a b e0 in
    let e1 := if n0 / d0 <? 2 ^ 52 then e0 - 1 else e0 in
    let e := Z.max e1 emin in
    let '(n, d) := scaled a b e in
    let m := round_half_even n d in
    let '(m', e') := if m =? 2 ^ 53 then (2 ^ 52, e + 1) else (m, e) in
    if emax <? e' then Raise OverflowError else Ok (mk sign m' e').

(** [a / b] on Python integers: the correctly rounded quotient. *)
Definition truediv (a b : Z) : result double :=
  if b =? 0 then Raise ZeroDivisionError
  else nearest (xorb (a <? 0) (b <? 0)) (Z.abs a) (Z.abs b).

(** [round(x, 2)]: the exact value of [x] is rounded to a whole number of
    hundredths, ties to even, and the nearest binary64 value to that
    decimal is returned. *)
Definition round2 (x : double) : result double :=
  let '(n, d) := scaled (man x * 100) 1 (- ex x) in
  nearest (neg x) (round_half_even n d) 100.

(** The rational a value stands for. *)
Definition to_Q (x : double) : Q :=
  let v := if 0 <=? ex x
           then inject_Z (man x * 2 ^ ex x)
           else Qmake (man x) (Z.to_pos (2 ^ (- ex x))) in
  if neg x then Qopp v else v.

(** [a / (b * 2^e) < c], without fractions. *)
Definition below (a b e c : Z) : Prop :=
  a * 2 ^ Z.max 0 (- e) < c * b * 2 ^ Z.max 0 e.

End PyFloat.

(** ** Rows *)

(** The Python objects a cell of a row holds. *)
Inductive value : Type :=
| VStr (s : string)
| VInt (z : Z)
| VFloat (d : PyFloat.double)
| VBool (b : bool)
| VNaN.                     (* the fill value of a missing cell *)

Module Series.

(** A row (a pandas [Series], or the [dict] made of it): labelled values,
    in column order. *)
Definition t : Type := list (string * value).

Definition labels (row : t) : list string := map fst row.

(** [row[k]] read; [None] stands for the [KeyError]. *)
Fixpoint get (row : t) (k : string) : option value :=
  match row with
  | [] => None
  | (k', v) :: row' => if k' =? k then Some v else get row' k
  end.

(** [row[k] = v]: an existing label keeps its place, a new one goes to
    the end. *)
Fixpoint set (row : t) (k : string) (v : value) : t :=
  match row with
  | [] => [(k, v)]
  | (k', v') :: row' =>
      if k' =? k then (k', v) :: row' else (k', v') :: set row' k v
  end.

(** The row without the column [k]. *)
Definition drop (k : string) (row : t) : t :=
  filter (fun kv => negb (fst kv =? k)) row.

End Series.

(** ** The script *)

Module Script.

Import PyStr.

(** *** What a run does to the outside: console lines and files written *)

Inductive event : Type :=
| Print (line : string)
| PrintHead (rows : list Series.t)                 (* [print(df.head())] *)
| WriteCsv (name : string) (header : list string)
           (rows : list (list value)).             (* [df.to_csv(name)] *)

(** A computation: the events it caused, then its value or the exception
    that ended it. *)
Definition M (A : Type) : Type := list event * result A.

Definition ret {A} (a : A) : M A := ([], Ok a).

Definition bind {A B} (m : M A) (f : A -> M B) : M B :=
  match m with
  | (tr, Ok a) => let '(tr', r) := f a in ((tr ++ tr')%list, r)
  | (tr, Raise e) => (tr, Raise e)
  end.

Definition raise {A} (e : exn) : M A := ([], Raise e).
Definition emit (ev : event) : M unit := ([ev], Ok tt).
Definition print (line : string) : M unit := emit (Print line).

Definition lift {A} (r : result A) : M A := ([], r).

Notation "x <- m ;; k" := (bind m (fun x => k))
  (at level 61, m at next level, right associativity).
Notation "m ;;; k" := (bind m (fun _ => k))
  (at level 61, right associativity).

Definition trace {A} (m : M A) : list event := fst m.
Definition outcome {A} (m : M A) : result A := snd m.

(** *** The file system the script reads *)

(** What [torchaudio.info] reports. *)
Record AudioMetaData : Type := {
  sample_rate : Z;
  num_frames : Z;
  num_channels : Z;
  bits_per_sample : Z;
  encoding : string
}.

(** What [pd.read_csv] with [sep=' '], [header=None] and the five names
    makes of one data line, before the converter: the cells of the columns
    Speaker, ID, UN and Attack as it types them (text; an integer, a float
    or a boolean where it reads the column so; NaN for a field that is
    empty, NA-like or missing from a short line), and the text of the fifth
    field (empty when the line has none), which goes to the converter. *)
Record trial : Type := {
  t_speaker : value;
  t_id : value;
  t_un : value;
  t_attack : value;
  t_label : string
}.

Inductive node : Type :=
| Protocol (lines : list trial)   (* a file the reader accepts, its data lines *)
| Flac (info : AudioMetaData)     (* an audio file with a readable header *)
| Other.                          (* a directory, or a file neither reader accepts *)

Definition filesystem : Type := string -> option node.

(** [os.path.exists(p)]. *)
Definition exists_ (fs : filesystem) (p : string) : bool :=
  match fs p with Some _ => true | None => false end.

(** *** Module constants *)

Definition root_folder : string := "./dataset".
Definition dataset_name : string := "ASVspoof2019_LA".
Definition ID_PREFIX : string := "ASV19LA-".
Definition data_folder : string := os_path_join root_folder [dataset_name].
Definition output_csv : string := dataset_name ++ ".csv".
Definition protocol_files : list string :=
  [ "ASVspoof2019.LA.cm.train.trn.txt";
    "ASVspoof2019.LA.cm.dev.trl.txt";
    "ASVspoof2019.LA.cm.eval.trl.txt" ].

(** *** [read_protocol] *)

Definition converter_label (x : string) : string :=
  if x =? "bonafide" then "real" else "fake".

(** The row of the frame for one data line: the five names in the order
    given to [read_csv], the converter applied to the text of the label. *)
Definition row_of_trial (t : trial) : Series.t :=
  [ ("Speaker", t_speaker t);
    ("ID", t_id t);
    ("UN", t_un t);
    ("Attack", t_attack t);
    ("Label", VStr (converter_label (t_label t))) ].

Definition read_csv (fs : filesystem) (path : string) : M (list Series.t) :=
  match fs path with
  | Some (Protocol lines) => ret (map row_of_trial lines)
  | _ => raise ParserError
  end.

Definition read_protocol (fs : filesystem) (protocol_file : string)
  : M (list Series.t) :=
  metadata <- read_csv fs protocol_file ;;
  emit (PrintHead (firstn 5 metadata)) ;;;
  ret metadata.

(** *** [collect_audio_metadata] *)

Definition torchaudio_info (fs : filesystem) (path : string)
  : M AudioMetaData :=
  match fs path with
  | Some (Flac info) => ret info
  | _ => raise RuntimeError
  end.

Definition getitem (row : Series.t) (k : string) : M value :=
  match Series.get row k with
  | Some v => ret v
  | None => raise KeyError
  end.

(** The two directory and subset names chosen from the utterance ID. *)
Definition subset_of (id : string) : string * string :=
  if str_in "T_" id then ("ASVspoof2019_LA_train", "train")
  else if str_in "D_" id then ("ASVspoof2019_LA_dev", "valid")
  else ("ASVspoof2019_LA_eval", "test").

(** The path of the audio file of an utterance. *)
Definition audio_path (id : string) : string :=
  os_path_join data_folder [fst (subset_of id); "flac"; id ++ ".flac"].

(** The local variables of [__get_audio_meta] when control reaches the
    assignments to [row].  [lang] is assigned on one branch only, so it
    may still be unbound there. *)
Record locals : Type := {
  duration : value;
  l_sample_rate : value;
  filepath : string;
  l_encoding : string;
  bitpersample : value;
  l_num_channels : value;
  lang : option string
}.

(** Reading a local variable. *)
Definition read_local (x : option string) : M string :=
  match x with
  | Some s => ret s
  | None => raise UnboundLocalError
  end.

Definition __get_audio_meta (fs : filesystem) (row : Series.t)
  : M Series.t :=
  id_v <- getitem row "ID" ;;
  id <- match id_v with
        | VStr s => ret s
        | _ => raise TypeError
        end ;;
  let '(subset, subset_id) := subset_of id in
  let file_path := os_path_join data_folder [subset; "flac"; id ++ ".flac"] in
  let file_id := ID_PREFIX ++ id in
  label <- getitem row "Label" ;;
  loc <- (if exists_ fs file_path then
            metainfo <- torchaudio_info fs file_path ;;
            let sample_rate := sample_rate metainfo in
            let num_channels := num_channels metainfo in
            q <- lift (PyFloat.truediv (num_frames metainfo) sample_rate) ;;
            duration <- lift (PyFloat.round2 q) ;;
            let filepath := replace file_path root_folder "$ROOT/" in
            let encoding := encoding metainfo in
            let bitpersample := bits_per_sample metainfo in
            (if (1 <? num_channels)%Z
             then print ("Warning: File " ++ file_path
                         ++ " has multiple channels.")
             else ret tt) ;;;
            ret {| duration := VFloat duration;
                   l_sample_rate := VInt sample_rate;
                   filepath := filepath;
                   l_encoding := encoding;
                   bitpersample := VInt bitpersample;
                   l_num_channels := VInt num_channels;
                   lang := Some "EN" |}
          else
            print ("Warning: File " ++ file_path
                   ++ " does not exist, skipping entry.") ;;;
            ret {| duration := VInt (-1);
                   l_sample_rate := VInt (-1);
                   filepath := "";
                   l_encoding := "";
                   bitpersample := VInt (-1);
                   l_num_channels := VInt (-1);
                   lang := None |}) ;;
  let row := Series.set row "ID" (VStr file_id) in
  let row := Series.set row "Duration" (duration loc) in
  let row := Series.set row "SampleRate" (l_sample_rate loc) in
  let row := Series.set row "Path" (VStr (filepath loc)) in
  let row := Series.set row "Proportion" (VStr subset_id) in
  let row := Series.set row "AudioChannel" (l_num_channels loc) in
  let row := Series.set row "AudioEncoding" (VStr (l_encoding loc)) in
  let row := Series.set row "AudioBitSample" (bitpersample loc) in
  lang <- read_local (lang loc) ;;
  let row := Series.set row "Language" (VStr lang) in
  ret row.

(** The row function on one row after the other, the results in row
    order. *)
Fixpoint map_rows (f : Series.t -> M Series.t) (rows : list Series.t)
  : M (list Series.t) :=
  match rows with
  | [] => ret []
  | row :: rows' =>
      r <- f row ;;
      rs <- map_rows f rows' ;;
      ret (r :: rs)
  end.

(** [df.parallel_apply(f, axis=1)]: a frame without rows leaves no work
    for any worker and the call ends in a ValueError; otherwise the row
    function is applied to every row. *)
Definition parallel_apply (f : Series.t -> M Series.t)
  (rows : list Series.t) : M (list Series.t) :=
  match rows with
  | [] => raise ValueError
  | _ :: _ => map_rows f rows
  end.

Definition collect_audio_metadata (fs : filesystem)
  (metadata : list Series.t) : M (list Series.t) :=
  parallel_apply (fun x => __get_audio_meta fs x) metadata.

(** *** [write_csv] *)

Definition header : list string :=
  [ "ID"; "Label"; "Duration"; "SampleRate"; "Path"; "Attack"; "Speaker";
    "Proportion"; "AudioChannel"; "AudioEncoding"; "AudioBitSample";
    "Language" ].

(** The columns of [pd.DataFrame(records)]: every label some record has. *)
Definition frame_columns (records : list Series.t) : list string :=
  flat_map Series.labels records.

Definition has_column (records : list Series.t) (k : string) : bool :=
  existsb (String.eqb k) (frame_columns records).

(** The cell of a record under a column of the frame; a record without
    the label gets the fill value. *)
Definition cell (r : Series.t) (k : string) : value :=
  match Series.get r k with
  | Some v => v
  | None => VNaN
  end.

(** The dtype of a column of [pd.DataFrame(records)]: text or a boolean in
    it makes it an object column, which keeps every cell as it is; without
    them, a float or a fill value makes it a float column. *)
Definition is_object (v : value) : bool :=
  match v with VStr _ | VBool _ => true | _ => false end.

Definition is_floating (v : value) : bool :=
  match v with VFloat _ | VNaN => true | _ => false end.

Definition float_column (records : list Series.t) (k : string) : bool :=
  negb (existsb (fun r => is_object (cell r k)) records)
  && existsb (fun r => is_floating (cell r k)) records.

(** The float an integer (of 64 bits, as the reader and the header probe
    give them) is stored as in a float column. *)
Definition float_of_int (z : Z) : value :=
  match PyFloat.nearest (z <? 0)%Z (Z.abs z) 1 with
  | Ok d => VFloat d
  | Raise _ => VInt z
  end.

(** The cell of a record as the frame stores it. *)
Definition stored_cell (records : list Series.t) (r : Series.t)
  (k : string) : value :=
  match cell r k with
  | VInt z => if float_column records k then float_of_int z else VInt z
  | v => v
  end.

(** [metadata[header]]: a [KeyError] unless every label is a column. *)
Definition select (records : list Series.t) (cols : list string)
  : M (list (list value)) :=
  if forallb (has_column records) cols
  then ret (map (fun r => map (stored_cell records r) cols) records)
  else raise KeyError.

Definition write_csv (metadata : list Series.t) : M unit :=
  rows <- select metadata header ;;
  emit (WriteCsv output_csv header rows).

(** *** The main script *)

(** The loop over the protocol files; [combined] is [combined_metadata]. *)
Fixpoint main_loop (fs : filesystem) (files : list string)
  (combined : list Series.t) : M (list Series.t) :=
  match files with
  | [] => ret combined
  | protocol_file :: files' =>
      let protocol_file :=
        os_path_join data_folder
          ["ASVspoof2019_LA_cm_protocols"; protocol_file] in
      print ("Processing protocol: " ++ protocol_file) ;;;
      if negb (exists_ fs protocol_file) then
        print ("Warning: Protocol file " ++ protocol_file
               ++ " not found, skipping.") ;;;
        main_loop fs files' combined
      else
        protocol_data <- read_protocol fs protocol_file ;;
        metadata <- collect_audio_metadata fs protocol_data ;;
        let metadata := map (Series.drop "UN") metadata in
        main_loop fs files' (combined ++ metadata)%list
  end.

Definition main (fs : filesystem) : M unit :=
  combined_metadata <- main_loop fs protocol_files [] ;;
  write_csv combined_metadata ;;;
  print ("Metadata CSV written to " ++ output_csv).

End Script.

(** ** Notions the properties are stated with *)

Module Obs.

Import PyStr Script.

(** [pat] occurs in [s]: the meaning of Python's [pat in s]. *)
Definition occurs (pat s : string) : Prop :=
  exists a b, s = a ++ pat ++ b.

(** The console line for a file with several channels, if any. *)
Definition multichannel_warning (id : string) (mi : AudioMetaData)
  : list event :=
  if (1 <? num_channels mi)%Z
  then [Print ("Warning: File " ++ audio_path id
               ++ " has multiple channels.")]
  else [].

(** The row returned for an utterance whose header was read. *)
Definition enriched (row : Series.t) (id : string) (mi : AudioMetaData)
  (d : PyFloat.double) : Series.t :=
  let row := Series.set row "ID" (VStr (ID_PREFIX ++ id)) in
  let row := Series.set row "Duration" (VFloat d) in
  let row := Series.set row "SampleRate" (VInt (sample_rate mi)) in
  let row := Series.set row "Path"
               (VStr (replace (audio_path id) root_folder "$ROOT/")) in
  let row := Series.set row "Proportion" (VStr (snd (subset_of id))) in
  let row := Series.set row "AudioChannel" (VInt (num_channels mi)) in
  let row := Series.set row "AudioEncoding" (VStr (encoding mi)) in
  let row := Series.set row "AudioBitSample" (VInt (bits_per_sample mi)) in
  Series.set row "Language" (VStr "EN").

(** The warning printed for an utterance without audio file. *)
Definition missing_warning (id : string) : event :=
  Print ("Warning: File " ++ audio_path id
         ++ " does not exist, skipping entry.").

(** Console output, as opposed to a file written. *)
Definition console (ev : event) : Prop :=
  match ev with
  | WriteCsv _ _ _ => False
  | _ => True
  end.

(** The path the loop builds for a protocol file name. *)
Definition protocol_path (name : string) : string :=
  os_path_join data_folder ["ASVspoof2019_LA_cm_protocols"; name].

(** The data lines of the protocol file at [p]; none when there is no
    such file. *)
Definition lines_at (fs : filesystem) (p : string) : list trial :=
  match fs p with
  | Some (Protocol lines) => lines
  | _ => []
  end.

(** All data lines a run reads, in reading order. *)
Definition all_trials (fs : filesystem) (names : list string) : list trial :=
  flat_map (fun name => lines_at fs (protocol_path name)) names.

(** [r] is the record the run keeps for the data line [t]. *)
Definition emitted (fs : filesystem) (t : trial) (r : Series.t) : Prop :=
  exists tr r0,
    __get_audio_meta fs (row_of_trial t) = (tr, Ok r0) /\
    r = Series.drop "UN" r0.

(** The header probe of the utterance [id] answers [mi], and the duration
    computed from it is [d]. *)
Definition probed (fs : filesystem) (id : string) (mi : AudioMetaData)
  (d : PyFloat.double) : Prop :=
  fs (audio_path id) = Some (Flac mi) /\
  exists q, PyFloat.truediv (num_frames mi) (sample_rate mi) = Ok q /\
            PyFloat.round2 q = Ok d.

(** The text of a cell that holds text. *)
Definition text_of (v : value) : string :=
  match v with VStr s => s | _ => EmptyString end.

(** The text line a record of text fields stands for: its fields and the
    label text, a single space between them. *)
Definition text_line (t : trial) : string :=
  text_of (t_speaker t) ++ " " ++ text_of (t_id t) ++ " "
  ++ text_of (t_un t) ++ " " ++ text_of (t_attack t) ++ " " ++ t_label t.

(** The cell [c] is the cell [v] as a frame stores it: the same, or for an
    integer possibly the float of it. *)
Definition stored (v c : value) : Prop :=
  match v with
  | VInt z => c = VInt z \/ c = float_of_int z
  | _ => c = v
  end.

(** The cells of the CSV line of a data line with the utterance ID [id], in
    header order; [a] and [s] are the Attack and Speaker cells. *)
Definition csv_cells (id : string) (label : string) (mi : AudioMetaData)
  (d : PyFloat.double) (a s : value) : list value :=
  [ VStr (ID_PREFIX ++ id);
    VStr (converter_label label);
    VFloat d;
    VInt (sample_rate mi);
    VStr (replace (audio_path id) root_folder "$ROOT/");
    a;
    s;
    VStr (snd (subset_of id));
    VInt (num_channels mi);
    VStr (encoding mi);
    VInt (bits_per_sample mi);
    VStr "EN" ].

(** The same for a data line whose Attack and Speaker cells are stored as
    the reader gave them (so for text). *)
Definition csv_row (t : trial) (mi : AudioMetaData) (d : PyFloat.double)
  : list value :=
  csv_cells (text_of (t_id t)) (t_label t) mi d (t_attack t) (t_speaker t).

(** [cells] is the CSV line of the data line [t]: the ID of [t] is text,
    its audio header was read, and the cells are those of [t], Attack and
    Speaker as the frame stores them. *)
Definition csv_line (fs : filesystem) (t : trial) (cells : list value)
  : Prop :=
  exists id mi d a s,
    t_id t = VStr id /\ probed fs id mi d /\
    stored (t_attack t) a /\ stored (t_speaker t) s /\
    cells = csv_cells id (t_label t) mi d a s.

(** The spec's reading of the path rewrite: a leading [pre] of [s] is
    replaced by [tok], nothing else changes. *)
Definition replace_prefix (s pre tok : string) : string :=
  if startswith s pre
  then tok ++ String.substring (String.length pre)
                (String.length s - String.length pre) s
  else s.

(** The file at [p] is absent, or a protocol table with at least one data
    line. *)
Definition absent_or_lines (fs : filesystem) (p : string) : Prop :=
  fs p = None \/ exists t lines, fs p = Some (Protocol (t :: lines)).

(** Every data line read has a text ID and names an audio file whose header
    can be read. *)
Definition all_probed (fs : filesystem) (ts : list trial) : Prop :=
  Forall (fun t => exists id mi d, t_id t = VStr id /\ probed fs id mi d) ts.

(** [records'] holds the records of [records] with their columns in some
    other order. *)
Definition same_up_to_column_order (records records' : list Series.t)
  : Prop :=
  Forall2 (fun r r' => NoDup (Series.labels r) /\ Permutation r r')
    records records'.

End Obs.

(** ** Concrete inputs *)

Module Examples.

Import PyStr Script Obs.

(** What the reader makes of the first line of the protocol excerpt in the
    script's docstring, [LA_0069 LA_D_1047731 - - bonafide]: none of its
    first four fields reads as a number, a boolean or a missing value, so
    each is text whatever the other lines of the file hold. *)
Definition trial_dev : trial :=
  {| t_speaker := VStr "LA_0069"; t_id := VStr "LA_D_1047731";
     t_un := VStr "-"; t_attack := VStr "-"; t_label := "bonafide" |}.

(** A two-second mono file at 16 kHz. *)
Definition info_dev : AudioMetaData :=
  {| sample_rate := 16000; num_frames := 32000; num_channels := 1;
     bits_per_sample := 16; encoding := "FLAC" |}.

(** The binary64 value 2.0. *)
Definition two : PyFloat.double :=
  {| PyFloat.neg := false; PyFloat.man := 4503599627370496;
     PyFloat.ex := -51 |}.

Definition dev_protocol : string :=
  protocol_path "ASVspoof2019.LA.cm.dev.trl.txt".

(** Only the dev protocol exists, with one line; its audio file is absent. *)
Definition fs_no_audio : filesystem :=
  fun p => if p =? dev_protocol then Some (Protocol [trial_dev]) else None.

(** The same with the audio file in place. *)
Definition fs_dev : filesystem :=
  fun p => if p =? audio_path "LA_D_1047731" then Some (Flac info_dev)
           else fs_no_audio p.

(** Nothing exists. *)
Definition fs_empty : filesystem := fun _ => None.

(** A line whose utterance ID contains the root folder string; its audio
    file [dataset.flac] sits in the directory [x.] of the eval set. *)
Definition trial_odd : trial :=
  {| t_speaker := VStr "LA_0001"; t_id := VStr "x./dataset";
     t_un := VStr "-"; t_attack := VStr "A07"; t_label := "spoof" |}.

Definition fs_odd : filesystem :=
  fun p => if p =? audio_path "x./dataset" then Some (Flac info_dev)
           else None.

(** Two records with the columns of the output and an "UN" column, and the
    same records with their columns in reverse order. *)
Definition records_ab : list Series.t :=
  [ enriched (row_of_trial trial_dev) "LA_D_1047731" info_dev two;
    enriched (row_of_trial trial_odd) "x./dataset" info_dev two ].

Definition records_ba : list Series.t := map (@rev _) records_ab.

End Examples.

(** ** Further notions and inputs *)

Module More.

Import PyStr Script Obs Examples.

(** How many files a trace writes. *)
Fixpoint writes (tr : list event) : nat :=
  match tr with
  | [] => 0
  | WriteCsv _ _ _ :: tr' => S (writes tr')
  | _ :: tr' => writes tr'
  end.

(** The exception the row function ends in before it looks at any file:
    a row without "ID", with an "ID" that is no text, or without "Label". *)
Definition row_error (row : Series.t) : option exn :=
  match Series.get row "ID" with
  | None => Some KeyError
  | Some (VStr _) =>
      match Series.get row "Label" with
      | None => Some KeyError
      | Some _ => None
      end
  | Some _ => Some TypeError
  end.

(** A header the duration can be computed from: a sample rate other than
    zero and a frame count of 64 bits. *)
Definition sound_header (mi : AudioMetaData) : Prop :=
  sample_rate mi <> 0%Z /\ (Z.abs (num_frames mi) < 2 ^ 63)%Z.

(** Every data line has a text ID and names an audio file with such a
    header. *)
Definition all_sound (fs : filesystem) (ts : list trial) : Prop :=
  Forall (fun t => exists id mi,
              t_id t = VStr id /\
              fs (audio_path id) = Some (Flac mi) /\ sound_header mi)
    ts.

(** Some record has the column [k]. *)
Definition covers (records : list Series.t) (k : string) : Prop :=
  exists r, In r records /\ In k (Series.labels r).

(** The character [c] occurs in [s]. *)
Fixpoint mentions (c : ascii) (s : string) : bool :=
  match s with
  | EmptyString => false
  | String x s' => Ascii.eqb x c || mentions c s'
  end.

(** The labels the row function adds, in the order of its assignments. *)
Definition added_labels : list string :=
  [ "Duration"; "SampleRate"; "Path"; "Proportion"; "AudioChannel";
    "AudioEncoding"; "AudioBitSample"; "Language" ].

(** A two-channel file of ten seconds. *)
Definition info_stereo : AudioMetaData :=
  {| sample_rate := 16000; num_frames := 160000; num_channels := 2;
     bits_per_sample := 16; encoding := "FLAC" |}.

Definition fs_stereo : filesystem :=
  fun p => if p =? audio_path "LA_D_1047731" then Some (Flac info_stereo)
           else fs_no_audio p.

(** A header that reports the sample rate zero. *)
Definition info_zero_rate : AudioMetaData :=
  {| sample_rate := 0; num_frames := 32000; num_channels := 1;
     bits_per_sample := 16; encoding := "FLAC" |}.

Definition fs_zero_rate : filesystem :=
  fun p => if p =? audio_path "LA_D_1047731" then Some (Flac info_zero_rate)
           else fs_no_audio p.

(** The dev protocol exists and has no data line. *)
Definition fs_no_lines : filesystem :=
  fun p => if p =? dev_protocol then Some (Protocol []) else None.

(** Rows the reader would not produce for a text protocol: no label, and
    an ID column read as numbers. *)
Definition row_no_label : Series.t :=
  [ ("Speaker", VStr "LA_0069"); ("ID", VStr "LA_D_1047731") ].

Definition row_numeric_id : Series.t :=
  [ ("ID", VInt 1047731); ("Label", VStr "real") ].

(** Records that lack the "Language" column. *)
Definition records_no_language : list Series.t :=
  [ Series.drop "Language"
      (enriched (row_of_trial trial_dev) "LA_D_1047731" info_dev two) ].

End More.

(** * Properties *)

(** ** Strings *)

Module PyStrFacts.

Import PyStr Obs.

Lemma startswith_app (s p : string) :
  startswith s p = true <-> exists b, s = p ++ b.
Proof.
  revert s; induction p as [|c p IH]; intros s; simpl.
  - split; [intros _; now exists s | reflexivity].
  - destruct s as [|c' s]; simpl.
    + split; [discriminate | intros [b Hb]; discriminate].
    + rewrite andb_true_iff, Ascii.eqb_eq, IH. split.
      * intros [-> [b ->]]. now exists b.
      * intros [b Hb]. injection Hb as -> ->. split; [reflexivity | now exists b].
Qed.

Lemma str_in_occurs (pat s : string) :
  str_in pat s = true <-> occurs pat s.
Proof.
  induction s as [|c s IH]; simpl.
  - rewrite orb_false_r, startswith_app. split.
    + intros [b Hb]. now exists "", b.
    + intros [[|x a] [b Hb]]; [now exists b | discriminate].
  - rewrite orb_true_iff, IH, startswith_app. split.
    + intros [[b Hb] | [a [b Hb]]].
      * now exists "", b.
      * exists (String c a), b. simpl. now rewrite Hb.
    + intros [[|x a] [b Hb]].
      * left. now exists b.
      * right. simpl in Hb. injection Hb as _ Hb. now exists a, b.
Qed.

Lemma str_in_false (pat s : string) :
  str_in pat s = false <-> ~ occurs pat s.
Proof.
  rewrite <- str_in_occurs. destruct (str_in pat s); split; congruence.
Qed.

(** A string without occurrence of [old] is left as it is. *)
Lemma replace_from_absent (old new s : string) :
  str_in old s = false -> replace_from 0 old new s = s.
Proof.
  induction s as [|c s IH]; cbn [replace_from str_in]; [reflexivity|].
  intros H. apply orb_false_iff in H as [H1 H2].
  rewrite H1, IH; [reflexivity | assumption].
Qed.

Lemma substring_all (s : string) :
  String.substring 0 (String.length s) s = s.
Proof. induction s as [|c s IH]; cbn; [reflexivity | now rewrite IH]. Qed.

Ltac split_chars :=
  repeat match goal with
         | |- context [Ascii.eqb ?a ?b] => is_var b; destruct (Ascii.eqb a b)
         end.

(** The root folder cannot begin inside an ID and end inside the file
    extension. *)
Lemma startswith_flac (id : string) :
  startswith id "./dataset" = false ->
  startswith (id ++ ".flac") "./dataset" = false.
Proof.
  do 9 (destruct id as [|? id];
        [intros _; cbn [startswith append]; split_chars; reflexivity|]).
  cbn [startswith append]. intros H. exact H.
Qed.

Lemma str_in_flac (id : string) :
  str_in "./dataset" id = false ->
  str_in "./dataset" (id ++ ".flac") = false.
Proof.
  induction id as [|c id IH].
  - intros _. reflexivity.
  - change (String c id ++ ".flac") with (String c (id ++ ".flac")).
    cbn [str_in]. intros H. apply orb_false_iff in H as [H1 H2].
    apply orb_false_iff. split; [|now apply IH].
    now apply (startswith_flac (String c id)).
Qed.

End PyStrFacts.

(** ** Rows *)

Module SeriesFacts.

Import Series.

Lemma get_set_same (row : t) k v : get (set row k v) k = Some v.
Proof.
  induction row as [|[k' v'] row IH]; simpl.
  - now rewrite String.eqb_refl.
  - destruct (k' =? k) eqn:E; simpl; now rewrite E.
Qed.

Lemma get_set_other (row : t) k v k' :
  k <> k' -> get (set row k v) k' = get row k'.
Proof.
  intros Hne. induction row as [|[k0 v0] row IH]; simpl.
  - apply String.eqb_neq in Hne. now rewrite Hne.
  - destruct (k0 =? k) eqn:E; simpl.
    + apply String.eqb_eq in E. subst k0.
      apply String.eqb_neq in Hne. now rewrite Hne.
    + now rewrite IH.
Qed.

Lemma get_drop_other (row : t) k k' :
  k <> k' -> get (drop k row) k' = get row k'.
Proof.
  intros Hne. unfold drop.
  induction row as [|[k0 v0] row IH]; simpl; [reflexivity|].
  destruct (k0 =? k) eqn:E; simpl.
  - apply String.eqb_eq in E. subst k0.
    apply String.eqb_neq in Hne. now rewrite Hne.
  - now rewrite IH.
Qed.

Lemma get_some_in (row : t) k v :
  NoDup (labels row) -> (get row k = Some v <-> In (k, v) row).
Proof.
  induction row as [|[k0 v0] row IH]; cbn [labels map fst get In].
  - intros _. split; [discriminate | contradiction].
  - intros Hnd. inversion Hnd as [|? ? Hnotin Hnd']; subst.
    destruct (k0 =? k) eqn:E.
    + apply String.eqb_eq in E. subst k0. split.
      * intros H. injection H as ->. now left.
      * intros [H | H]; [now injection H as -> |].
        exfalso. apply Hnotin. apply (in_map fst) in H. exact H.
    + apply String.eqb_neq in E. rewrite (IH Hnd'). split.
      * intros H. now right.
      * intros [H | H]; [injection H as -> _; contradiction | exact H].
Qed.

(** A row read by label does not depend on the order of its columns. *)
Lemma get_perm (row row' : t) k :
  NoDup (labels row) -> Permutation row row' -> get row' k = get row k.
Proof.
  intros Hnd Hp.
  assert (NoDup (labels row')) as Hnd'.
  { eapply Permutation_NoDup; [|exact Hnd]. now apply Permutation_map. }
  destruct (get row k) as [v|] eqn:E.
  - apply (get_some_in _ _ _ Hnd') . apply (get_some_in _ _ _ Hnd) in E.
    eapply Permutation_in; eassumption.
  - destruct (get row' k) as [v'|] eqn:E'; [|reflexivity].
    apply (get_some_in _ _ _ Hnd') in E'.
    apply Permutation_sym in Hp.
    apply (Permutation_in _ Hp) in E'. apply (get_some_in _ _ _ Hnd) in E'.
    congruence.
Qed.

Lemma labels_drop (row : t) k :
  labels (drop k row) = filter (fun k' => negb (k' =? k)) (labels row).
Proof.
  unfold drop, labels. induction row as [|[k0 v0] row IH]; cbn; [reflexivity|].
  destruct (k0 =? k); cbn; now rewrite IH.
Qed.

End SeriesFacts.

(** ** Floats *)

Module PyFloatFacts.

Import PyFloat.
Local Open Scope Z_scope.

Lemma round_half_even_bounds num den :
  0 <= num -> 0 < den ->
  num / den <= round_half_even num den <= num / den + 1.
Proof.
  intros Hn Hd. unfold round_half_even.
  destruct (2 * (num mod den) <? den); [lia|].
  destruct (den <? 2 * (num mod den)); [lia|].
  destruct (Z.even (num / den)); lia.
Qed.

Lemma scaled_pos a b e n d :
  0 < a -> 0 < b -> scaled a b e = (n, d) -> 0 < n /\ 0 < d.
Proof.
  intros Ha Hb. unfold scaled.
  destruct (0 <=? e) eqn:E; intros H; injection H as <- <-.
  - apply Z.leb_le in E. split; [lia|]. apply Z.mul_pos_pos; [lia|].
    apply Z.pow_pos_nonneg; lia.
  - apply Z.leb_gt in E. split; [|lia]. apply Z.mul_pos_pos; [lia|].
    apply Z.pow_pos_nonneg; lia.
Qed.

Lemma scaled_below a b e c n d :
  0 < a -> 0 < b -> scaled a b e = (n, d) ->
  (n < c * d <-> below a b e c).
Proof.
  intros Ha Hb. unfold scaled, below.
  destruct (0 <=? e) eqn:E; intros H; injection H as <- <-.
  - apply Z.leb_le in E. rewrite Z.max_l by lia. rewrite Z.max_r by lia.
    rewrite Z.pow_0_r. lia.
  - apply Z.leb_gt in E. rewrite Z.max_r by lia. rewrite Z.max_l by lia.
    rewrite Z.pow_0_r. lia.
Qed.

Lemma below_mono a b e e' c :
  0 < a -> 0 < b -> 0 < c -> e <= e' -> below a b e c -> below a b e' c.
Proof.
  intros Ha Hb Hc Hle. unfold below. intros H.
  assert (2 ^ Z.max 0 (- e') <= 2 ^ Z.max 0 (- e)) by (apply Z.pow_le_mono_r; lia).
  assert (2 ^ Z.max 0 e <= 2 ^ Z.max 0 e') by (apply Z.pow_le_mono_r; lia).
  apply Z.le_lt_trans with (a * 2 ^ Z.max 0 (- e)).
  - apply Z.mul_le_mono_nonneg_l; lia.
  - apply Z.lt_le_trans with (c * b * 2 ^ Z.max 0 e); [exact H|].
    apply Z.mul_le_mono_nonneg_l; [|assumption].
    apply Z.mul_nonneg_nonneg; lia.
Qed.

Lemma below_e0 a b :
  0 < a -> 0 < b -> below a b (Z.log2 a - Z.log2 b - 52) (2 ^ 53).
Proof.
  intros Ha Hb. unfold below.
  pose proof (Z.log2_spec a Ha) as [_ Hau].
  pose proof (Z.log2_spec b Hb) as [Hbl _].
  pose proof (Z.log2_nonneg a) as Hla. pose proof (Z.log2_nonneg b) as Hlb.
  set (la := Z.log2 a) in *. set (lb := Z.log2 b) in *.
  apply Z.lt_le_trans with (2 ^ Z.succ la * 2 ^ Z.max 0 (- (la - lb - 52))).
  - apply Z.mul_lt_mono_pos_r; [apply Z.pow_pos_nonneg; lia | exact Hau].
  - apply Z.le_trans with (2 ^ 53 * 2 ^ lb * 2 ^ Z.max 0 (la - lb - 52)).
    + rewrite <- !Z.pow_add_r by lia. apply Z.pow_le_mono_r; lia.
    + apply Z.mul_le_mono_nonneg_r; [apply Z.pow_nonneg; lia|].
      apply Z.mul_le_mono_nonneg_l; [apply Z.pow_nonneg; lia | exact Hbl].
Qed.

Lemma below_half a b e :
  0 < a -> 0 < b -> below a b e (2 ^ 52) -> below a b (e - 1) (2 ^ 53).
Proof.
  intros Ha Hb. unfold below. intros H.
  destruct (Z.le_gt_cases 1 e) as [He | He].
  - rewrite Z.max_l in * by lia. rewrite Z.max_r in * by lia.
    replace (2 ^ e) with (2 * 2 ^ (e - 1)) in H.
    2:{ rewrite <- Z.pow_succ_r by lia. f_equal. lia. }
    change (2 ^ 53) with (2 ^ 52 * 2). lia.
  - rewrite (Z.max_r 0 (- (e - 1))) by lia.
    rewrite (Z.max_l 0 (e - 1)) by lia.
    rewrite (Z.max_r 0 (- e)) in H by lia.
    rewrite (Z.max_l 0 e) in H by lia.
    replace (- (e - 1)) with (Z.succ (- e)) by lia.
    rewrite Z.pow_succ_r by lia. rewrite Z.pow_0_r in *.
    change (2 ^ 53) with (2 ^ 52 * 2). lia.
Qed.


Lemma div_lt_iff n d c : 0 <= n -> 0 < d -> (n / d < c <-> n < c * d).
Proof.
  intros Hn Hd. split; intros H.
  - pose proof (Z.mod_pos_bound n d Hd). pose proof (Z.div_mod n d ltac:(lia)).
    nia.
  - apply Z.div_lt_upper_bound; lia.
Qed.

Lemma nearest_wf s a b x :
  0 < a -> 0 < b -> nearest s a b = Ok x ->
  neg x = s /\ 0 <= man x < 2 ^ 53 /\ emin <= ex x <= emax /\
  ex x <= Z.max (Z.log2 a - Z.log2 b - 52) emin + 1.
Proof.
  intros Ha Hb. unfold nearest.
  destruct (a =? 0) eqn:E0; [apply Z.eqb_eq in E0; lia|].
  set (e0 := Z.log2 a - Z.log2 b - 52).
  destruct (scaled a b e0) as [n0 d0] eqn:S0.
  set (e1 := if n0 / d0 <? 2 ^ 52 then e0 - 1 else e0).
  set (e := Z.max e1 emin).
  destruct (scaled a b e) as [n d] eqn:S.
  destruct (scaled_pos _ _ _ _ _ Ha Hb S0) as [Hn0 Hd0].
  destruct (scaled_pos _ _ _ _ _ Ha Hb S) as [Hn Hd].
  assert (below a b e1 (2 ^ 53)) as Hb1.
  { unfold e1. destruct (n0 / d0 <? 2 ^ 52) eqn:E.
    - apply below_half; try assumption.
      apply (scaled_below _ _ _ _ _ _ Ha Hb S0).
      apply div_lt_iff; [lia | assumption |]. now apply Z.ltb_lt.
    - now apply below_e0. }
  assert (n / d < 2 ^ 53) as Hq.
  { apply div_lt_iff; [lia | assumption |].
    apply (scaled_below _ _ _ _ _ _ Ha Hb S).
    apply below_mono with e1; try assumption; [reflexivity | unfold e; lia]. }
  pose proof (round_half_even_bounds n d ltac:(lia) Hd) as Hm.
  pose proof (Z.div_pos n d ltac:(lia) Hd) as Hq0.
  assert (e1 <= e0) as He1 by (unfold e1; destruct (n0 / d0 <? 2 ^ 52); lia).
  destruct (round_half_even n d =? 2 ^ 53) eqn:Em.
  - destruct (emax <? e + 1) eqn:Ee; [discriminate|].
    apply Z.ltb_ge in Ee. intros H. injection H as <-. cbn [neg man ex].
    unfold emin in *. repeat split; try reflexivity; try lia.
  - apply Z.eqb_neq in Em.
    destruct (emax <? e) eqn:Ee; [discriminate|].
    apply Z.ltb_ge in Ee. intros H. injection H as <-. cbn [neg man ex].
    unfold emin in *. repeat split; try reflexivity; try lia.
Qed.

Lemma nearest_ok s a b :
  0 <= a -> 0 < b -> Z.log2 a - Z.log2 b <= 1022 ->
  exists x, nearest s a b = Ok x.
Proof.
  intros Ha Hb Hl. unfold nearest.
  destruct (a =? 0); [now eexists|].
  set (e0 := Z.log2 a - Z.log2 b - 52).
  destruct (scaled a b e0) as [n0 d0].
  set (e1 := if n0 / d0 <? 2 ^ 52 then e0 - 1 else e0).
  assert (e1 <= e0) as He1 by (unfold e1; destruct (n0 / d0 <? 2 ^ 52); lia).
  set (e := Z.max e1 emin).
  destruct (scaled a b e) as [n d].
  assert (e <= 970) as He by (unfold e, emin, e0 in *; lia).
  destruct (round_half_even n d =? 2 ^ 53).
  - destruct (emax <? e + 1) eqn:Ee; [|now eexists].
    apply Z.ltb_lt in Ee. unfold emax in Ee. lia.
  - destruct (emax <? e) eqn:Ee; [|now eexists].
    apply Z.ltb_lt in Ee. unfold emax in Ee. lia.
Qed.

Lemma truediv_ok a b :
  b <> 0 -> Z.abs a < 2 ^ 1023 -> exists q, truediv a b = Ok q.
Proof.
  intros Hb Ha. unfold truediv.
  destruct (b =? 0) eqn:E; [apply Z.eqb_eq in E; contradiction|].
  apply nearest_ok; [lia | lia |].
  pose proof (Z.log2_nonneg (Z.abs b)).
  destruct (Z.eq_dec a 0) as [->|Hne]; [cbn; lia|].
  assert (Z.log2 (Z.abs a) < 1023) by (apply Z.log2_lt_pow2; lia).
  lia.
Qed.

Lemma truediv_wf a b q :
  truediv a b = Ok q ->
  0 <= man q < 2 ^ 53 /\ emin <= ex q <= emax /\
  ex q <= Z.max (Z.log2 (Z.abs a) - 52) emin + 1.
Proof.
  unfold truediv. destruct (b =? 0) eqn:E; [discriminate|].
  apply Z.eqb_neq in E.
  destruct (Z.eq_dec a 0) as [->|Hne].
  - cbn. intros H. injection H as <-. cbn. unfold emin, emax. lia.
  - intros H. apply nearest_wf in H as (_ & Hm & He & Hx); try lia.
    pose proof (Z.log2_nonneg (Z.abs b)). repeat split; lia.
Qed.

Lemma round2_ok x :
  0 <= man x < 2 ^ 53 -> ex x <= 960 -> exists y, round2 x = Ok y.
Proof.
  intros Hm He. unfold round2.
  destruct (scaled (man x * 100) 1 (- ex x)) as [n d] eqn:S.
  assert (0 <= n < 2 ^ 1020 /\ 0 < d) as [Hn Hd].
  { unfold scaled in S. rewrite Z.mul_1_l in S.
    destruct (0 <=? - ex x) eqn:E; injection S as <- <-.
    - apply Z.leb_le in E. split; [lia|]. apply Z.pow_pos_nonneg; lia.
    - apply Z.leb_gt in E. split; [|lia].
      replace (- - ex x) with (ex x) by lia.
      assert (2 ^ ex x <= 2 ^ 960) by (apply Z.pow_le_mono_r; lia).
      assert (0 < 2 ^ ex x) by (apply Z.pow_pos_nonneg; lia).
      split; [lia|].
      apply Z.le_lt_trans with (2 ^ 53 * 100 * 2 ^ 960); [|reflexivity].
      apply Z.mul_le_mono_nonneg; lia. }
  pose proof (round_half_even_bounds n d ltac:(lia) Hd) as Ht.
  pose proof (Z.div_pos n d ltac:(lia) Hd) as Hq0.
  assert (n / d <= n) as Hq by (apply Z.div_le_upper_bound; nia).
  apply nearest_ok; [lia | lia |].
  set (t := round_half_even n d) in *.
  destruct (Z.eq_dec t 0) as [->|Hne]; [cbn; lia|].
  assert (Z.log2 t < 1021).
  { apply Z.log2_lt_pow2; [lia|].
    apply Z.le_lt_trans with (2 ^ 1020); [lia | reflexivity]. }
  change (Z.log2 100) with 6. lia.
Qed.

(** The rounded quotient is a nearest integer: it is off by half a unit at
    most. *)
Lemma round_half_even_nearest num den :
  0 <= num -> 0 < den ->
  2 * Z.abs (round_half_even num den * den - num) <= den.
Proof.
  intros Hn Hd. unfold round_half_even.
  pose proof (Z.mod_pos_bound num den Hd) as Hr.
  pose proof (Z.div_mod num den ltac:(lia)) as Hq.
  destruct (2 * (num mod den) <? den) eqn:E1.
  - apply Z.ltb_lt in E1. nia.
  - apply Z.ltb_ge in E1. destruct (den <? 2 * (num mod den)) eqn:E2.
    + apply Z.ltb_lt in E2. nia.
    + apply Z.ltb_ge in E2. destruct (Z.even (num / den)); nia.
Qed.

(** On a tie the even neighbour is taken. *)
Lemma round_half_even_tie num den :
  0 < den -> 2 * (num mod den) = den ->
  Z.even (round_half_even num den) = true.
Proof.
  intros Hd Ht. unfold round_half_even.
  rewrite (proj2 (Z.ltb_ge _ _)) by lia. rewrite (proj2 (Z.ltb_ge _ _)) by lia.
  destruct (Z.even (num / den)) eqn:E; [exact E|].
  rewrite Z.even_add, E. reflexivity.
Qed.

(** The duration of a file with a non-zero sample rate and a frame count
    of a 64-bit header is defined. *)
Lemma duration_defined frames rate :
  rate <> 0 -> Z.abs frames < 2 ^ 63 ->
  exists q d, truediv frames rate = Ok q /\ round2 q = Ok d.
Proof.
  intros Hr Hf.
  destruct (truediv_ok frames rate Hr) as [q Hq];
    [apply Z.lt_trans with (2 ^ 63); [exact Hf | reflexivity]|].
  destruct (truediv_wf _ _ _ Hq) as (Hm & _ & He).
  destruct (round2_ok q Hm) as [d Hd]; [|now exists q, d].
  destruct (Z.eq_dec frames 0) as [->|Hne]; [cbn in He; unfold emin in He; lia|].
  assert (Z.log2 (Z.abs frames) < 63) by (apply Z.log2_lt_pow2; lia).
  unfold emin in He. lia.
Qed.

Lemma truediv_by_zero frames : truediv frames 0 = Raise ZeroDivisionError.
Proof. reflexivity. Qed.

(** Values Python documents or prints: [1 / 3], [round(2.675, 2)] (which is
    2.67, the binary value lying below the decimal one) and the tie
    [round(0.125, 2)] (0.12). *)
Example third : truediv 1 3 = Ok (mk false 6004799503160661 (-54)).
Proof. reflexivity. Qed.

Example round_2675 :
  (exists q, truediv 2675 1000 = Ok q /\ round2 q = truediv 267 100).
Proof. eexists. split; reflexivity. Qed.

Example round_0125 :
  (exists q, truediv 1 8 = Ok q /\ round2 q = truediv 12 100).
Proof. eexists. split; reflexivity. Qed.

Example minus_zero : truediv 0 (-5) = Ok (mk true 0 emin).
Proof. reflexivity. Qed.

Example overflow : truediv (2 ^ 1024) 1 = Raise OverflowError.
Proof. reflexivity. Qed.

End PyFloatFacts.

(** ** The script *)

Module ScriptFacts.

Import PyStr Script Obs PyStrFacts.

(** *** The monad *)

Lemma bind_ok_inv {A B} (m : M A) (f : A -> M B) tr b :
  bind m f = (tr, Ok b) ->
  exists tr1 a tr2,
    m = (tr1, Ok a) /\ f a = (tr2, Ok b) /\ tr = (tr1 ++ tr2)%list.
Proof.
  destruct m as [tr1 [a|e]]; simpl; [|discriminate].
  destruct (f a) as [tr2 r] eqn:E. intros H. injection H as <- ->.
  now exists tr1, a, tr2.
Qed.

(** *** The row function *)

Lemma get_audio_meta_present fs row id l mi q d :
  Series.get row "ID" = Some (VStr id) ->
  Series.get row "Label" = Some l ->
  fs (audio_path id) = Some (Flac mi) ->
  PyFloat.truediv (num_frames mi) (sample_rate mi) = Ok q ->
  PyFloat.round2 q = Ok d ->
  __get_audio_meta fs row
  = (multichannel_warning id mi, Ok (enriched row id mi d)).
Proof.
  intros Hid Hl Hfs Hq Hd.
  unfold __get_audio_meta, getitem, enriched, multichannel_warning, audio_path in *.
  rewrite Hid, Hl. cbn [bind ret app].
  destruct (subset_of id) as [subset subset_id]. cbn [fst snd] in *.
  unfold exists_, torchaudio_info. rewrite Hfs. cbn [bind ret app].
  rewrite Hq. cbn [lift bind]. rewrite Hd.
  destruct (1 <? num_channels mi)%Z; reflexivity.
Qed.

Lemma get_audio_meta_missing fs row id l :
  Series.get row "ID" = Some (VStr id) ->
  Series.get row "Label" = Some l ->
  exists_ fs (audio_path id) = false ->
  __get_audio_meta fs row = ([missing_warning id], Raise UnboundLocalError).
Proof.
  intros Hid Hl Hfs.
  unfold __get_audio_meta, getitem, missing_warning, audio_path in *.
  rewrite Hid, Hl. cbn [bind ret app].
  destruct (subset_of id) as [subset subset_id]. cbn [fst snd] in *.
  rewrite Hfs. reflexivity.
Qed.

(** Case analysis of a call of the row function. *)
Ltac row_step :=
  cbn [bind ret raise app lift fst snd];
  match goal with
  | |- context [Series.get ?r ?k] => destruct (Series.get r k) as [[?| | | |]|]
  | |- context [subset_of ?i] => destruct (subset_of i)
  | |- context [match ?fs ?p with Some _ => _ | None => _ end] =>
      destruct (fs p) as [[?|?|]|]
  | |- context [PyFloat.truediv ?a ?b] => destruct (PyFloat.truediv a b)
  | |- context [PyFloat.round2 ?a] => destruct (PyFloat.round2 a)
  | |- context [(1 <? ?c)%Z] => destruct (1 <? c)%Z
  end.

Ltac row_cases :=
  unfold __get_audio_meta, getitem, audio_path, exists_, torchaudio_info;
  repeat row_step.

Lemma get_audio_meta_ok_inv fs row tr row' :
  __get_audio_meta fs row = (tr, Ok row') ->
  exists id l mi q d,
    Series.get row "ID" = Some (VStr id) /\
    Series.get row "Label" = Some l /\
    fs (audio_path id) = Some (Flac mi) /\
    PyFloat.truediv (num_frames mi) (sample_rate mi) = Ok q /\
    PyFloat.round2 q = Ok d /\
    tr = multichannel_warning id mi /\
    row' = enriched row id mi d.
Proof.
  destruct (Series.get row "ID") as [[id| | | |]|] eqn:Hid;
    try (unfold __get_audio_meta, getitem; rewrite Hid; discriminate).
  destruct (Series.get row "Label") as [l|] eqn:Hl.
  2:{ unfold __get_audio_meta, getitem; rewrite Hid, Hl. cbn [bind ret raise app].
      destruct (subset_of id). discriminate. }
  destruct (exists_ fs (audio_path id)) eqn:Hex.
  2:{ rewrite (get_audio_meta_missing _ _ _ _ Hid Hl Hex). discriminate. }
  unfold exists_ in Hex.
  destruct (fs (audio_path id)) as [[lines|mi|]|] eqn:Hfs; try discriminate.
  1,3: unfold __get_audio_meta, getitem, audio_path, exists_, torchaudio_info in *;
    rewrite Hid, Hl; cbn [bind ret raise app];
    destruct (subset_of id); cbn [fst snd] in *; rewrite Hfs; discriminate.
  destruct (PyFloat.truediv (num_frames mi) (sample_rate mi)) as [q|] eqn:Hq.
  2:{ unfold __get_audio_meta, getitem, audio_path, exists_, torchaudio_info in *;
      rewrite Hid, Hl; cbn [bind ret raise app];
      destruct (subset_of id); cbn [fst snd] in *; rewrite Hfs;
      cbn [bind ret raise app]; rewrite Hq; discriminate. }
  destruct (PyFloat.round2 q) as [d|] eqn:Hd.
  2:{ unfold __get_audio_meta, getitem, audio_path, exists_, torchaudio_info in *;
      rewrite Hid, Hl; cbn [bind ret raise app];
      destruct (subset_of id); cbn [fst snd] in *; rewrite Hfs;
      cbn [bind ret raise app lift]; rewrite Hq; cbn [bind ret raise app lift];
      rewrite Hd; discriminate. }
  rewrite (get_audio_meta_present _ _ _ _ _ _ _ Hid Hl Hfs Hq Hd).
  intros H. injection H as <- <-. now exists id, l, mi, q, d.
Qed.

Lemma get_audio_meta_console fs row :
  Forall console (trace (__get_audio_meta fs row)).
Proof.
  row_cases; cbn; repeat constructor.
Qed.

(** *** The audio path and its rewrite *)

Lemma join2_plain (path id : string) :
  startswith id "/" = false ->
  (path =? "") || endswith path "/" = false ->
  join2 path (id ++ ".flac") = path ++ "/" ++ id ++ ".flac".
Proof.
  intros Hid Hpath. unfold join2. rewrite Hpath.
  destruct id as [|c id]; [reflexivity|].
  change (String c id ++ ".flac") with (String c (id ++ ".flac")).
  cbn [startswith] in *. now rewrite Hid.
Qed.

Lemma audio_path_plain (id : string) :
  startswith id "/" = false ->
  audio_path id
  = "./dataset" ++ "/ASVspoof2019_LA/" ++ fst (subset_of id) ++ "/flac/"
    ++ id ++ ".flac".
Proof.
  intros Hid. unfold audio_path, subset_of, os_path_join.
  destruct (str_in "T_" id); [|destruct (str_in "D_" id)];
    cbn [fst fold_left]; rewrite join2_plain; try assumption; reflexivity.
Qed.

Lemma replace_audio_path (id : string) :
  startswith id "/" = false ->
  str_in "./dataset" id = false ->
  replace (audio_path id) root_folder "$ROOT/"
  = "$ROOT/" ++ "/ASVspoof2019_LA/" ++ fst (subset_of id) ++ "/flac/"
    ++ id ++ ".flac".
Proof.
  intros Hid Hin. rewrite (audio_path_plain id Hid).
  apply str_in_flac in Hin. unfold subset_of.
  destruct (str_in "T_" id); [|destruct (str_in "D_" id)];
    cbn; rewrite (replace_from_absent _ _ _ Hin); reflexivity.
Qed.

Lemma replace_prefix_audio_path (id : string) :
  startswith id "/" = false ->
  replace_prefix (audio_path id) root_folder "$ROOT/"
  = "$ROOT/" ++ "/ASVspoof2019_LA/" ++ fst (subset_of id) ++ "/flac/"
    ++ id ++ ".flac".
Proof.
  intros Hid. rewrite (audio_path_plain id Hid). unfold subset_of.
  destruct (str_in "T_" id); [|destruct (str_in "D_" id)];
    cbn; rewrite substring_all; reflexivity.
Qed.

(** *** Traces *)

Lemma bind_console {A B} (m : M A) (f : A -> M B) :
  Forall console (trace m) ->
  (forall a, Forall console (trace (f a))) ->
  Forall console (trace (bind m f)).
Proof.
  destruct m as [tr [a|e]]; cbn; intros Hm Hf; [|assumption].
  specialize (Hf a). destruct (f a) as [tr' r]. cbn in *.
  apply Forall_app. now split.
Qed.

Lemma print_console line : Forall console (trace (print line)).
Proof. repeat constructor. Qed.

(** *** [parallel_apply] *)

Lemma map_rows_ok_inv f rows tr rs :
  map_rows f rows = (tr, Ok rs) ->
  Forall2 (fun r r' => exists tr', f r = (tr', Ok r')) rows rs.
Proof.
  revert tr rs. induction rows as [|row rows IH]; intros tr rs; cbn [map_rows].
  - intros H. injection H as <- <-. constructor.
  - intros H.
    apply bind_ok_inv in H as (tr1 & r & tr2 & Hf & H & ->).
    apply bind_ok_inv in H as (tr3 & rs' & tr4 & Hrs & H & ->).
    injection H as <- <-. constructor; [now exists tr1 | now apply IH with tr3].
Qed.

Lemma parallel_apply_ok_inv f rows tr rs :
  parallel_apply f rows = (tr, Ok rs) ->
  rows <> [] /\
  Forall2 (fun r r' => exists tr', f r = (tr', Ok r')) rows rs.
Proof.
  unfold parallel_apply. destruct rows as [|row rows]; [discriminate|].
  intros H. split; [discriminate | now apply map_rows_ok_inv with tr].
Qed.

Lemma map_rows_console f rows :
  (forall r, Forall console (trace (f r))) ->
  Forall console (trace (map_rows f rows)).
Proof.
  intros Hf. induction rows as [|row rows IH]; cbn [map_rows].
  - constructor.
  - apply bind_console; [apply Hf | intros r].
    apply bind_console; [apply IH | intros rs; constructor].
Qed.

Lemma parallel_apply_console f rows :
  (forall r, Forall console (trace (f r))) ->
  Forall console (trace (parallel_apply f rows)).
Proof.
  intros Hf. unfold parallel_apply. destruct rows as [|row rows].
  - constructor.
  - now apply map_rows_console.
Qed.

(** *** The loop over the protocol files *)

Lemma read_protocol_ok_inv fs p tr rows :
  read_protocol fs p = (tr, Ok rows) ->
  exists lines, fs p = Some (Protocol lines) /\ rows = map row_of_trial lines.
Proof.
  unfold read_protocol, read_csv.
  destruct (fs p) as [[lines| |]|]; cbn; try discriminate.
  intros H. injection H as _ <-. now exists lines.
Qed.

Lemma read_protocol_console fs p : Forall console (trace (read_protocol fs p)).
Proof.
  unfold read_protocol, read_csv.
  destruct (fs p) as [[lines| |]|]; cbn; repeat constructor.
Qed.

Lemma main_loop_ok_inv fs names combined tr out :
  main_loop fs names combined = (tr, Ok out) ->
  exists news,
    out = (combined ++ news)%list /\
    Forall2 (emitted fs) (all_trials fs names) news.
Proof.
  revert combined tr. induction names as [|name names IH]; intros combined tr;
    cbn [main_loop all_trials flat_map].
  - intros H. injection H as _ <-. exists []. split; [now rewrite app_nil_r | constructor].
  - fold (protocol_path name). fold (all_trials fs names). intros H.
    apply bind_ok_inv in H as (tr1 & [] & tr2 & _ & H & ->).
    destruct (exists_ fs (protocol_path name)) eqn:Hex; cbn [negb] in H.
    + apply bind_ok_inv in H as (tr3 & rows & tr4 & Hread & H & ->).
      apply bind_ok_inv in H as (tr5 & meta & tr6 & Happ & H & ->).
      apply IH in H as (news & -> & Hnews).
      apply read_protocol_ok_inv in Hread as (lines & Hfs & ->).
      exists (map (Series.drop "UN") meta ++ news)%list.
      split; [now rewrite app_assoc|].
      unfold lines_at. rewrite Hfs. apply Forall2_app; [|assumption].
      apply parallel_apply_ok_inv in Happ as [_ Happ]. clear - Happ.
      remember (map row_of_trial lines) as rows eqn:E.
      revert lines E. induction Happ as [|r r' rows rs [tr' Hr] _ IHr];
        intros [|t lines] E; try discriminate; cbn [map]; constructor.
      * injection E as -> _. now exists tr', r'.
      * injection E as _ E. now apply IHr.
    + apply bind_ok_inv in H as (tr3 & [] & tr4 & _ & H & ->).
      apply IH in H as (news & -> & Hnews). exists news. split; [reflexivity|].
      unfold lines_at, exists_ in *. destruct (fs (protocol_path name)); [discriminate|].
      assumption.
Qed.

(** A loop that ends normally found every protocol file absent or with at
    least one data line: an empty frame makes [parallel_apply] raise. *)
Lemma main_loop_ok_lines fs names combined tr out :
  main_loop fs names combined = (tr, Ok out) ->
  Forall (fun name => absent_or_lines fs (protocol_path name)) names.
Proof.
  revert combined tr. induction names as [|name names IH]; intros combined tr;
    cbn [main_loop]; [constructor|].
  fold (protocol_path name). intros H.
  apply bind_ok_inv in H as (tr1 & [] & tr2 & _ & H & ->).
  destruct (exists_ fs (protocol_path name)) eqn:Hex; cbn [negb] in H.
  - apply bind_ok_inv in H as (tr3 & rows & tr4 & Hread & H & ->).
    apply bind_ok_inv in H as (tr5 & meta & tr6 & Happ & H & ->).
    apply IH in H. constructor; [|exact H].
    apply read_protocol_ok_inv in Hread as (lines & Hfs & ->).
    apply parallel_apply_ok_inv in Happ as [Hne _].
    right. destruct lines as [|t lines]; [now destruct Hne|].
    now exists t, lines.
  - apply bind_ok_inv in H as (tr3 & [] & tr4 & _ & H & ->).
    apply IH in H. constructor; [|exact H].
    left. unfold exists_ in Hex.
    now destruct (fs (protocol_path name)).
Qed.

Lemma main_loop_console fs names combined :
  Forall console (trace (main_loop fs names combined)).
Proof.
  revert combined. induction names as [|name names IH]; intros combined;
    cbn [main_loop]; [constructor|].
  apply bind_console; [apply print_console | intros _].
  destruct (negb _).
  - apply bind_console; [apply print_console | intros _; apply IH].
  - apply bind_console; [apply read_protocol_console | intros rows].
    apply bind_console; [|intros meta; apply IH].
    apply parallel_apply_console. intros r. apply get_audio_meta_console.
Qed.

(** *** From a data line to its CSV line *)

Lemma emitted_inv fs t r :
  emitted fs t r ->
  exists id mi d,
    t_id t = VStr id /\
    probed fs id mi d /\
    r = Series.drop "UN" (enriched (row_of_trial t) id mi d).
Proof.
  intros (tr & r0 & H & ->).
  apply get_audio_meta_ok_inv in H
    as (id & l & mi & q & d & Hid & _ & Hfs & Hq & Hd & _ & ->).
  cbn in Hid. injection Hid as Hid.
  exists id, mi, d. split; [exact Hid|]. split; [|reflexivity].
  split; [assumption | now exists q].
Qed.

Lemma emitted_labels fs t r :
  emitted fs t r ->
  Series.labels r =
  [ "Speaker"; "ID"; "Attack"; "Label"; "Duration"; "SampleRate"; "Path";
    "Proportion"; "AudioChannel"; "AudioEncoding"; "AudioBitSample";
    "Language" ].
Proof.
  intros H. apply emitted_inv in H as (id & mi & d & _ & _ & ->). reflexivity.
Qed.

Lemma probed_emitted fs t id mi d :
  t_id t = VStr id ->
  probed fs id mi d ->
  __get_audio_meta fs (row_of_trial t)
  = (multichannel_warning id mi,
     Ok (enriched (row_of_trial t) id mi d)).
Proof.
  intros Hid (Hfs & q & Hq & Hd).
  apply get_audio_meta_present
    with (l := VStr (converter_label (t_label t))) (q := q);
    try assumption; [|reflexivity].
  cbn. now rewrite Hid.
Qed.

(** *** The cells a frame stores *)

Lemma stored_cell_stored records r k :
  stored (cell r k) (stored_cell records r k).
Proof.
  unfold stored, stored_cell.
  destruct (cell r k); try reflexivity.
  destruct (float_column records k); [now right | now left].
Qed.

Lemma stored_cell_same records r k :
  (forall z, cell r k <> VInt z) -> stored_cell records r k = cell r k.
Proof.
  unfold stored_cell. intros H. destruct (cell r k) as [x|z|x|x|]; try reflexivity.
  now destruct (H z).
Qed.

(** A column of integers stays one. *)
Lemma integer_column records k r z :
  Forall (fun r' => exists z', cell r' k = VInt z') records ->
  cell r k = VInt z ->
  stored_cell records r k = VInt z.
Proof.
  intros Hall Hr. unfold stored_cell. rewrite Hr.
  enough (float_column records k = false) as -> by reflexivity.
  unfold float_column. apply andb_false_iff. right.
  induction Hall as [|r' rs (z' & Hz) _ IH]; [reflexivity|].
  cbn. now rewrite Hz, IH.
Qed.

Lemma emitted_stored_row fs out t r :
  Forall (fun r' => exists t', emitted fs t' r') out ->
  emitted fs t r ->
  csv_line fs t (map (stored_cell out r) header).
Proof.
  intros Hall Hr.
  assert (forall k,
             In k ["SampleRate"; "AudioChannel"; "AudioBitSample"] ->
             Forall (fun r' => exists z', cell r' k = VInt z') out) as Hint.
  { intros k Hk. eapply Forall_impl; [|exact Hall].
    intros r' (t' & Hr'). apply emitted_inv in Hr' as (id & mi & d & _ & _ & ->).
    cbn in Hk. destruct Hk as [<- | [<- | [<- | []]]]; now eexists. }
  apply emitted_inv in Hr as (id & mi & d & Hid & Hp & ->).
  set (r := Series.drop "UN" (enriched (row_of_trial t) id mi d)).
  exists id, mi, d, (stored_cell out r "Attack"), (stored_cell out r "Speaker").
  split; [exact Hid|]. split; [exact Hp|].
  split; [exact (stored_cell_stored out r "Attack")|].
  split; [exact (stored_cell_stored out r "Speaker")|].
  unfold header, csv_cells. cbn [map].
  rewrite (integer_column out "SampleRate" r (sample_rate mi))
    by (try reflexivity; apply Hint; cbn; tauto).
  rewrite (integer_column out "AudioChannel" r (num_channels mi))
    by (try reflexivity; apply Hint; cbn; tauto).
  rewrite (integer_column out "AudioBitSample" r (bits_per_sample mi))
    by (try reflexivity; apply Hint; cbn; tauto).
  rewrite (stored_cell_same out r "ID") by discriminate.
  rewrite (stored_cell_same out r "Label") by discriminate.
  rewrite (stored_cell_same out r "Duration") by discriminate.
  rewrite (stored_cell_same out r "Path") by discriminate.
  rewrite (stored_cell_same out r "Proportion") by discriminate.
  rewrite (stored_cell_same out r "AudioEncoding") by discriminate.
  rewrite (stored_cell_same out r "Language") by discriminate.
  reflexivity.
Qed.

Lemma emitted_rows_in fs out ts rs :
  Forall (fun r' => exists t', emitted fs t' r') out ->
  Forall2 (emitted fs) ts rs ->
  Forall2 (csv_line fs) ts
    (map (fun r => map (stored_cell out r) header) rs).
Proof.
  intros Hall H.
  induction H as [|t r ts rs Hr _ IH]; cbn [map]; constructor;
    [now apply emitted_stored_row | exact IH].
Qed.

Lemma emitted_rows fs ts out :
  Forall2 (emitted fs) ts out ->
  Forall2 (csv_line fs) ts
    (map (fun r => map (stored_cell out r) header) out).
Proof.
  intros H. apply emitted_rows_in; [|exact H].
  clear - H. induction H as [|t r ts rs Hr _ IH]; constructor;
    [now exists t | exact IH].
Qed.

(** *** [write_csv] and the columns of its argument *)

Lemma has_column_cons r rs k :
  has_column (r :: rs) k
  = existsb (String.eqb k) (Series.labels r) || has_column rs k.
Proof.
  unfold has_column, frame_columns. cbn [flat_map]. apply existsb_app.
Qed.

Lemma existsb_perm {A} (f : A -> bool) (l l' : list A) :
  Permutation l l' -> existsb f l = existsb f l'.
Proof.
  induction 1 as [|x l l' _ IH|x y l|l l' l'' _ IH1 _ IH2]; cbn.
  - reflexivity.
  - now rewrite IH.
  - now destruct (f x), (f y).
  - now rewrite IH1.
Qed.

Lemma has_column_perm records records' k :
  same_up_to_column_order records records' ->
  has_column records' k = has_column records k.
Proof.
  induction 1 as [|r r' rs rs' [_ Hp] _ IH]; [reflexivity|].
  rewrite !has_column_cons, IH. f_equal.
  apply existsb_perm, Permutation_map, Permutation_sym, Hp.
Qed.

Lemma stored_rows_ext recs recs' cols rs rs' :
  (forall c, In c cols -> float_column recs' c = float_column recs c) ->
  Forall2 (fun r r' => forall c, In c cols -> cell r' c = cell r c) rs rs' ->
  map (fun r => map (stored_cell recs' r) cols) rs'
  = map (fun r => map (stored_cell recs r) cols) rs.
Proof.
  intros Hf Hcells.
  induction Hcells as [|r r' rs rs' Hr _ IH]; cbn [map]; [reflexivity|].
  rewrite IH. f_equal. apply map_ext_in. intros c Hc.
  unfold stored_cell. now rewrite (Hr c Hc), (Hf c Hc).
Qed.

(** The selection reads the records through their cells under the selected
    columns only. *)
Lemma select_ext records records' cols :
  Forall2 (fun r r' => forall c, In c cols -> cell r' c = cell r c)
    records records' ->
  (forall c, In c cols -> has_column records' c = has_column records c) ->
  select records' cols = select records cols.
Proof.
  intros Hcells Hcols. unfold select.
  assert (forallb (has_column records') cols
          = forallb (has_column records) cols) as ->.
  { clear - Hcols. induction cols as [|c cols IH]; [reflexivity|]. cbn.
    rewrite IH by (intros c' Hc'; apply Hcols; now right).
    rewrite Hcols by now left. reflexivity. }
  destruct (forallb (has_column records) cols); [|reflexivity].
  assert (forall c, In c cols ->
                    float_column records' c = float_column records c) as Hf.
  { intros c Hc. unfold float_column.
    assert (forall f : value -> bool,
               existsb (fun r => f (cell r c)) records'
               = existsb (fun r => f (cell r c)) records) as He.
    { intros f. clear - Hcells Hc.
      induction Hcells as [|r r' rs rs' Hr _ IH]; [reflexivity|].
      cbn [existsb]. now rewrite (Hr c Hc), IH. }
    now rewrite !He. }
  now rewrite (stored_rows_ext records records' cols records records' Hf Hcells).
Qed.

Lemma select_perm records records' cols :
  same_up_to_column_order records records' ->
  select records' cols = select records cols.
Proof.
  intros H. apply select_ext.
  - eapply Forall2_impl; [|exact H]. intros r r' [Hnd Hp] c _.
    unfold cell. now rewrite (SeriesFacts.get_perm r r' c Hnd Hp).
  - intros c _. now apply has_column_perm.
Qed.

Lemma has_column_drop records k k' :
  k <> k' ->
  has_column (map (Series.drop k) records) k' = has_column records k'.
Proof.
  intros Hne. induction records as [|r rs IH]; [reflexivity|].
  cbn [map]. rewrite !has_column_cons, IH. f_equal.
  rewrite SeriesFacts.labels_drop. clear - Hne.
  induction (Series.labels r) as [|x l IHl]; cbn; [reflexivity|].
  destruct (x =? k) eqn:E; cbn; rewrite IHl; [|reflexivity].
  apply String.eqb_eq in E. subst x.
  assert (k' <> k) as Hne' by congruence.
  apply String.eqb_neq in Hne'. now rewrite Hne'.
Qed.

Lemma select_drop records k cols :
  ~ In k cols ->
  select (map (Series.drop k) records) cols = select records cols.
Proof.
  intros Hk. apply select_ext.
  - induction records as [|r rs IH]; cbn [map]; constructor; [|exact IH].
    intros c Hc. unfold cell.
    rewrite SeriesFacts.get_drop_other; [reflexivity|].
    intros ->. contradiction.
  - intros c Hc. apply has_column_drop. intros ->. contradiction.
Qed.

(** *** The whole run *)


Lemma main_writes_inv fs name h rows :
  In (WriteCsv name h rows) (trace (main fs)) ->
  name = output_csv /\ h = header /\
  Forall2 (csv_line fs) (all_trials fs protocol_files) rows /\
  outcome (main fs) = Ok tt.
Proof.
  unfold main.
  pose proof (main_loop_console fs protocol_files []) as Hc.
  destruct (main_loop fs protocol_files []) as [tr0 [out|e]] eqn:Hloop;
    cbn [trace fst] in Hc.
  2:{ cbn. intros Hin. rewrite Forall_forall in Hc.
      apply Hc in Hin. destruct Hin. }
  apply main_loop_ok_inv in Hloop as (news & -> & Hnews). cbn [app bind] in *.
  apply emitted_rows in Hnews.
  set (ts := all_trials fs protocol_files) in *.
  set (cells := map _ news) in *.
  unfold write_csv, select. fold cells.
  destruct (forallb (has_column news) header); cbn.
  - rewrite in_app_iff. intros [Hin | [Hin | [Hin | []]]].
    + rewrite Forall_forall in Hc. apply Hc in Hin. destruct Hin.
    + injection Hin as <- <- <-. repeat split; try reflexivity. exact Hnews.
    + discriminate.
  - rewrite app_nil_r. intros Hin. rewrite Forall_forall in Hc.
    apply Hc in Hin. destruct Hin.
Qed.

Lemma map_rows_ok f rows :
  Forall (fun r => exists tr r', f r = (tr, Ok r')) rows ->
  exists tr rs, map_rows f rows = (tr, Ok rs).
Proof.
  induction 1 as [|row rows (tr & r' & Hf) _ (tr' & rs & IH)]; cbn [map_rows].
  - now exists [], [].
  - rewrite Hf. cbn [bind]. rewrite IH. cbn. now eexists _, _.
Qed.

Lemma main_loop_ok fs names combined :
  Forall (fun name => absent_or_lines fs (protocol_path name)) names ->
  all_probed fs (all_trials fs names) ->
  exists tr out, main_loop fs names combined = (tr, Ok out).
Proof.
  revert combined. induction names as [|name names IH]; intros combined Hn Hp;
    cbn [main_loop].
  - now exists [], combined.
  - fold (protocol_path name). inversion Hn as [|? ? Hname Hnames]; subst.
    unfold all_probed in Hp. cbn [all_trials flat_map] in Hp.
    apply Forall_app in Hp as [Hp1 Hp2].
    unfold exists_, read_protocol, read_csv, collect_audio_metadata.
    destruct Hname as [Hfs | (t0 & lines & Hfs)]; rewrite Hfs;
      cbn [negb bind print emit].
    + destruct (IH combined Hnames Hp2) as (tr & out & ->). cbn.
      now eexists _, _.
    + unfold lines_at in Hp1. rewrite Hfs in Hp1. cbn [ret bind emit].
      cbn [map parallel_apply].
      destruct (map_rows_ok (fun x => __get_audio_meta fs x)
                  (row_of_trial t0 :: map row_of_trial lines))
        as (tr1 & rs & ->).
      { change (row_of_trial t0 :: map row_of_trial lines)
          with (map row_of_trial (t0 :: lines)).
        apply Forall_map. eapply Forall_impl; [|exact Hp1].
        intros t (id & mi & d & Hid & Hpr).
        rewrite (probed_emitted _ _ _ _ _ Hid Hpr).
        now eexists _, _. }
      cbn [bind].
      destruct (IH (combined ++ map (Series.drop "UN") rs)%list Hnames Hp2)
        as (tr & out & ->).
      cbn. now eexists _, _.
Qed.

Lemma main_ok fs :
  Forall (fun name => absent_or_lines fs (protocol_path name))
    protocol_files ->
  all_probed fs (all_trials fs protocol_files) ->
  all_trials fs protocol_files <> [] ->
  exists tr rows,
    main fs = (tr, Ok tt) /\ In (WriteCsv output_csv header rows) tr.
Proof.
  intros Hn Hp Hne. unfold main.
  destruct (main_loop_ok fs protocol_files [] Hn Hp) as (tr0 & out & Hloop).
  rewrite Hloop. cbn [bind].
  apply main_loop_ok_inv in Hloop as (news & -> & Hnews). cbn [app].
  unfold write_csv, select.
  assert (forallb (has_column news) header = true) as ->.
  { destruct Hnews as [|t r ts rs Hr _]; [contradiction|].
    apply emitted_labels in Hr. unfold header. cbn [forallb].
    rewrite !has_column_cons, Hr. reflexivity. }
  cbn. eexists _, _. split; [reflexivity|].
  rewrite in_app_iff. right. now left.
Qed.

End ScriptFacts.

(** ** The claims *)

Module Claims.

Import PyStr Script Obs Examples PyStrFacts SeriesFacts ScriptFacts.

Lemma enriched_fields row id mi d :
  Series.get (enriched row id mi d) "ID" = Some (VStr (ID_PREFIX ++ id)) /\
  Series.get (enriched row id mi d) "Duration" = Some (VFloat d) /\
  Series.get (enriched row id mi d) "SampleRate"
  = Some (VInt (sample_rate mi)) /\
  Series.get (enriched row id mi d) "Path"
  = Some (VStr (replace (audio_path id) root_folder "$ROOT/")) /\
  Series.get (enriched row id mi d) "Proportion"
  = Some (VStr (snd (subset_of id))) /\
  Series.get (enriched row id mi d) "AudioChannel"
  = Some (VInt (num_channels mi)) /\
  Series.get (enriched row id mi d) "AudioEncoding"
  = Some (VStr (encoding mi)) /\
  Series.get (enriched row id mi d) "AudioBitSample"
  = Some (VInt (bits_per_sample mi)) /\
  Series.get (enriched row id mi d) "Language" = Some (VStr "EN").
Proof.
  unfold enriched.
  repeat split;
    repeat (rewrite get_set_other by discriminate); apply get_set_same.
Qed.

Lemma enriched_frame row id mi d k :
  ~ In k [ "ID"; "Duration"; "SampleRate"; "Path"; "Proportion";
           "AudioChannel"; "AudioEncoding"; "AudioBitSample"; "Language" ] ->
  Series.get (enriched row id mi d) k = Series.get row k.
Proof.
  intros Hk. unfold enriched.
  repeat (rewrite get_set_other;
          [|intros <-; apply Hk; cbn; tauto]).
  reflexivity.
Qed.

Lemma Forall2_in_l {A B} (R : A -> B -> Prop) l l' x :
  Forall2 R l l' -> In x l -> exists y, In y l' /\ R x y.
Proof.
  induction 1 as [|a b l l' Hab _ IH]; cbn; [contradiction|].
  intros [<- | Hin].
  - exists b. split; [now left | assumption].
  - destruct (IH Hin) as (y & Hy & HR). exists y. split; [now right | assumption].
Qed.

(** *** Missing audio files *)

(** C1.  The claim: a row whose audio file does not exist is still emitted,
    with the values -1 and the empty string, and only a warning is printed.
    On the code the row function prints the warning, sets those values, and
    then reads the local variable [lang], which only the other branch
    assigns: the call ends in an UnboundLocalError and no row is emitted
    (for a data line whose ID the reader keeps as text, the path of the
    audio file being built from that text). *)
Theorem missing_audio_row_raises (fs : filesystem) (t : trial)
  (id : string) :
  t_id t = VStr id ->
  exists_ fs (audio_path id) = false ->
  __get_audio_meta fs (row_of_trial t)
  = ([missing_warning id], Raise UnboundLocalError)
  /\ forall r, ~ emitted fs t r.
Proof.
  intros Hid Hex.
  assert (__get_audio_meta fs (row_of_trial t)
          = ([missing_warning id], Raise UnboundLocalError)) as Hraise.
  { apply get_audio_meta_missing
      with (l := VStr (converter_label (t_label t)));
      [cbn; now rewrite Hid | reflexivity | exact Hex]. }
  split; [exact Hraise|].
  intros r (tr & r0 & H & _). rewrite Hraise in H. discriminate.
Qed.

Lemma missing_audio_row_raises_witness :
  __get_audio_meta fs_no_audio (row_of_trial trial_dev)
  = ([missing_warning "LA_D_1047731"], Raise UnboundLocalError)
  /\ forall r, ~ emitted fs_no_audio trial_dev r.
Proof.
  apply (missing_audio_row_raises fs_no_audio trial_dev "LA_D_1047731");
    reflexivity.
Defined.

(** A run that ends normally has written the file. *)
Lemma main_ok_writes fs :
  outcome (main fs) = Ok tt ->
  exists rows, In (WriteCsv output_csv header rows) (trace (main fs)).
Proof.
  unfold main.
  destruct (main_loop fs protocol_files []) as [tr0 [out|e]]; cbn [bind];
    [|discriminate].
  unfold write_csv, select.
  destruct (forallb (has_column out) header); cbn; [|discriminate].
  intros _. eexists. rewrite in_app_iff. right. now left.
Qed.

(** Whenever the file is written, it has one line per data line of the
    protocol files that exist. *)
Lemma written_row_count fs name h rows :
  In (WriteCsv name h rows) (trace (main fs)) ->
  List.length rows
  = (List.length (lines_at fs (protocol_path "ASVspoof2019.LA.cm.train.trn.txt"))
     + List.length (lines_at fs (protocol_path "ASVspoof2019.LA.cm.dev.trl.txt"))
     + List.length (lines_at fs (protocol_path "ASVspoof2019.LA.cm.eval.trl.txt")))%nat.
Proof.
  intros H. apply main_writes_inv in H as (_ & _ & H & _).
  apply Forall2_length in H. rewrite <- H.
  unfold all_trials, protocol_files. cbn [flat_map].
  rewrite !length_app. cbn [List.length]. lia.
Qed.

(** With no protocol file at all the run ends in the column selection. *)
Lemma no_protocol_file_key_error fs :
  Forall (fun name => exists_ fs (protocol_path name) = false) protocol_files ->
  outcome (main fs) = Raise KeyError.
Proof.
  intros H. unfold protocol_files in H.
  inversion H as [|? ? H1 H']; subst. inversion H' as [|? ? H2 H'']; subst.
  inversion H'' as [|? ? H3 _]; subst. clear H H' H''.
  unfold main, protocol_files, main_loop.
  fold (protocol_path "ASVspoof2019.LA.cm.train.trn.txt").
  fold (protocol_path "ASVspoof2019.LA.cm.dev.trl.txt").
  fold (protocol_path "ASVspoof2019.LA.cm.eval.trl.txt").
  rewrite H1, H2, H3. reflexivity.
Qed.

Example run_without_protocols : outcome (main fs_empty) = Raise KeyError.
Proof. reflexivity. Qed.

(** C2.  The claim: the output has one row per line of the protocol files
    that exist, a missing protocol file never makes the run fail, and a
    missing audio file never drops a row.  On the code, as soon as one line
    that is read (its ID text) names a missing audio file, the run ends in
    an exception and writes no file at all. *)
Theorem missing_audio_aborts_run (fs : filesystem) (t : trial)
  (id : string) :
  In t (all_trials fs protocol_files) ->
  t_id t = VStr id ->
  exists_ fs (audio_path id) = false ->
  (exists e, outcome (main fs) = Raise e) /\
  Forall console (trace (main fs)).
Proof.
  intros Hin Hid Hex.
  assert (forall name h rows,
             ~ In (WriteCsv name h rows) (trace (main fs))) as Hnone.
  { intros name h rows Hw.
    apply main_writes_inv in Hw as (_ & _ & Hrows & _).
    destruct (Forall2_in_l _ _ _ _ Hrows Hin)
      as (cells & _ & id' & mi & d & a & sp & Hid' & (Hfs & _) & _).
    rewrite Hid in Hid'. injection Hid' as <-.
    unfold exists_ in Hex. rewrite Hfs in Hex. discriminate. }
  split.
  - destruct (outcome (main fs)) as [[]|e] eqn:E; [|now exists e].
    apply main_ok_writes in E as (rows & Hw). now apply Hnone in Hw.
  - apply Forall_forall. intros [line|rows|name h rows] Hev; cbn; try exact I.
    now apply Hnone in Hev.
Qed.

Lemma missing_audio_aborts_run_witness :
  (exists e, outcome (main fs_no_audio) = Raise e) /\
  Forall console (trace (main fs_no_audio)).
Proof.
  apply (missing_audio_aborts_run fs_no_audio trial_dev "LA_D_1047731").
  - vm_compute. left. reflexivity.
  - reflexivity.
  - reflexivity.
Defined.

(** *** Duration and path *)

(** C3, the claim as stated fails: for the utterance ID [x./dataset] the
    audio file exists, yet the emitted Path is not the file path with its
    leading root folder replaced: the second occurrence of [./dataset] is
    rewritten as well.  (Nor is it the file path with the leading data
    folder [./dataset/ASVspoof2019_LA] replaced.) *)
Lemma path_prefix_counterexample :
  exists tr row',
    __get_audio_meta fs_odd (row_of_trial trial_odd) = (tr, Ok row') /\
    audio_path "x./dataset"
    = "./dataset/ASVspoof2019_LA/ASVspoof2019_LA_eval/flac/x./dataset.flac" /\
    Series.get row' "Path"
    = Some (VStr "$ROOT//ASVspoof2019_LA/ASVspoof2019_LA_eval/flac/x$ROOT/.flac") /\
    replace_prefix (audio_path "x./dataset") root_folder "$ROOT/"
    = "$ROOT//ASVspoof2019_LA/ASVspoof2019_LA_eval/flac/x./dataset.flac" /\
    Series.get row' "Path"
    <> Some (VStr (replace_prefix (audio_path "x./dataset")
                     root_folder "$ROOT/")) /\
    Series.get row' "Path"
    <> Some (VStr (replace_prefix (audio_path "x./dataset")
                     data_folder "$ROOT/")).
Proof.
  eexists _, _. split; [reflexivity|].
  repeat split; try reflexivity; discriminate.
Qed.

(** The rewrite leaves the dataset directory in the path: for the line of
    the docstring the Path is not the file path with the data folder
    [./dataset/ASVspoof2019_LA] replaced. *)
Lemma path_keeps_dataset_directory :
  Series.get (enriched (row_of_trial trial_dev) "LA_D_1047731" info_dev two)
    "Path"
  = Some (VStr "$ROOT//ASVspoof2019_LA/ASVspoof2019_LA_dev/flac/LA_D_1047731.flac")
  /\ replace_prefix (audio_path "LA_D_1047731") data_folder "$ROOT/"
     = "$ROOT//ASVspoof2019_LA_dev/flac/LA_D_1047731.flac".
Proof. split; reflexivity. Qed.

(** C3, amended.  For every row with a text ID whose audio file exists,
    with a header of non-zero sample rate and a frame count within 64 bits,
    the call returns a row whose Duration is
    round(num_frames / sample_rate, 2) and whose Path is the file path the
    code constructs, the join of the data folder, the subset directory,
    "flac" and <ID>.flac, with every occurrence of the root folder
    [./dataset] replaced by [$ROOT/].  When the utterance ID does not start
    with [/] and does not contain [./dataset], the constructed path is
    [./dataset/ASVspoof2019_LA/<subset>/flac/<ID>.flac] and the Path is it
    with its leading [./dataset] replaced by [$ROOT/]. *)
Theorem duration_and_path_of_present_audio
  (fs : filesystem) (row : Series.t) (id : string) (l : value)
  (mi : AudioMetaData) :
  Series.get row "ID" = Some (VStr id) ->
  Series.get row "Label" = Some l ->
  fs (audio_path id) = Some (Flac mi) ->
  sample_rate mi <> 0%Z ->
  (Z.abs (num_frames mi) < 2 ^ 63)%Z ->
  exists q d tr row',
    PyFloat.truediv (num_frames mi) (sample_rate mi) = Ok q /\
    PyFloat.round2 q = Ok d /\
    __get_audio_meta fs row = (tr, Ok row') /\
    Series.get row' "Duration" = Some (VFloat d) /\
    audio_path id
    = os_path_join "./dataset/ASVspoof2019_LA"
        [fst (subset_of id); "flac"; id ++ ".flac"] /\
    Series.get row' "Path"
    = Some (VStr (replace (audio_path id) "./dataset" "$ROOT/")) /\
    (startswith id "/" = false ->
     str_in "./dataset" id = false ->
     audio_path id
     = "./dataset" ++ "/ASVspoof2019_LA/" ++ fst (subset_of id) ++ "/flac/"
       ++ id ++ ".flac" /\
     Series.get row' "Path"
     = Some (VStr ("$ROOT/" ++ "/ASVspoof2019_LA/" ++ fst (subset_of id)
                   ++ "/flac/" ++ id ++ ".flac")) /\
     Series.get row' "Path"
     = Some (VStr (replace_prefix (audio_path id) "./dataset" "$ROOT/"))).
Proof.
  intros Hid Hl Hfs Hrate Hframes.
  destruct (PyFloatFacts.duration_defined _ _ Hrate Hframes)
    as (q & d & Hq & Hd).
  exists q, d. eexists _, _.
  split; [exact Hq|]. split; [exact Hd|]. split.
  { exact (get_audio_meta_present fs row id l mi q d Hid Hl Hfs Hq Hd). }
  destruct (enriched_fields row id mi d) as (_ & HD & _ & HP & _).
  split; [exact HD|]. split; [reflexivity|]. split; [exact HP|].
  intros Hslash Hroot. rewrite HP.
  change "./dataset" with root_folder.
  rewrite (replace_prefix_audio_path id Hslash).
  rewrite (replace_audio_path id Hslash Hroot).
  split; [now apply audio_path_plain|]. split; reflexivity.
Qed.

Lemma duration_and_path_of_present_audio_witness :
  exists q d tr row',
    PyFloat.truediv 32000 16000 = Ok q /\
    PyFloat.round2 q = Ok d /\
    __get_audio_meta fs_odd (row_of_trial trial_odd) = (tr, Ok row') /\
    Series.get row' "Duration" = Some (VFloat d) /\
    audio_path "x./dataset"
    = os_path_join "./dataset/ASVspoof2019_LA"
        [fst (subset_of "x./dataset"); "flac"; "x./dataset" ++ ".flac"] /\
    Series.get row' "Path"
    = Some (VStr (replace (audio_path "x./dataset") "./dataset" "$ROOT/")) /\
    (startswith "x./dataset" "/" = false ->
     str_in "./dataset" "x./dataset" = false ->
     audio_path "x./dataset"
     = "./dataset" ++ "/ASVspoof2019_LA/" ++ fst (subset_of "x./dataset")
       ++ "/flac/" ++ "x./dataset" ++ ".flac" /\
     Series.get row' "Path"
     = Some (VStr ("$ROOT/" ++ "/ASVspoof2019_LA/"
                   ++ fst (subset_of "x./dataset")
                   ++ "/flac/" ++ "x./dataset" ++ ".flac")) /\
     Series.get row' "Path"
     = Some (VStr (replace_prefix (audio_path "x./dataset")
                     "./dataset" "$ROOT/"))).
Proof.
  apply (duration_and_path_of_present_audio fs_odd (row_of_trial trial_odd)
           "x./dataset" (VStr "fake") info_dev);
    try reflexivity.
  discriminate.
Defined.

(** The same at the line of the docstring, whose ID is plain: the Path is
    the file path with its leading root folder replaced. *)
Lemma duration_and_path_of_docstring_line :
  exists tr row',
    __get_audio_meta fs_dev (row_of_trial trial_dev) = (tr, Ok row') /\
    Series.get row' "Duration" = Some (VFloat two) /\
    Series.get row' "Path"
    = Some (VStr "$ROOT//ASVspoof2019_LA/ASVspoof2019_LA_dev/flac/LA_D_1047731.flac") /\
    replace_prefix (audio_path "LA_D_1047731") "./dataset" "$ROOT/"
    = "$ROOT//ASVspoof2019_LA/ASVspoof2019_LA_dev/flac/LA_D_1047731.flac".
Proof. eexists _, _. repeat split; reflexivity. Qed.

(** A header with sample rate zero ends the call in the division. *)
Lemma zero_sample_rate_raises fs row id l mi :
  Series.get row "ID" = Some (VStr id) ->
  Series.get row "Label" = Some l ->
  fs (audio_path id) = Some (Flac mi) ->
  sample_rate mi = 0%Z ->
  __get_audio_meta fs row = ([], Raise ZeroDivisionError).
Proof.
  intros Hid Hl Hfs Hz.
  unfold __get_audio_meta, getitem, audio_path, exists_, torchaudio_info in *.
  rewrite Hid, Hl. cbn [bind ret app].
  destruct (subset_of id) as [subset subset_id]. cbn [fst snd] in *.
  rewrite Hfs. cbn [bind ret app]. rewrite Hz. reflexivity.
Qed.

(** *** Label and subset *)

(** C4.  For a protocol file the reader accepts, [read_protocol] returns
    one row per data line, and the Label of each row is "real" or "fake":
    "real" exactly when the text of the label field of the line is
    "bonafide", "fake" for every other text.  The row function leaves that
    Label in the row it returns, and it is the Label cell of the line in
    every file a run writes. *)
Theorem label_is_real_or_fake (fs : filesystem) (p : string)
  (lines : list trial) :
  fs p = Some (Protocol lines) ->
  (exists rows,
      read_protocol fs p = ([PrintHead (firstn 5 rows)], Ok rows) /\
      Forall2
        (fun t row =>
           exists lab,
             Series.get row "Label" = Some (VStr lab) /\
             (lab = "real" \/ lab = "fake") /\
             (t_label t = "bonafide" -> lab = "real") /\
             (t_label t <> "bonafide" -> lab = "fake") /\
             forall tr row',
               __get_audio_meta fs row = (tr, Ok row') ->
               Series.get row' "Label" = Some (VStr lab))
        lines rows) /\
  (forall name h rows,
      In (WriteCsv name h rows) (trace (main fs)) ->
      Forall2
        (fun t cells =>
           nth 1 cells VNaN
           = VStr (if t_label t =? "bonafide" then "real" else "fake"))
        (all_trials fs protocol_files) rows).
Proof.
  intros Hfs. split.
  - exists (map row_of_trial lines). split.
    + unfold read_protocol, read_csv. rewrite Hfs. reflexivity.
    + clear Hfs. induction lines as [|t lines IH]; cbn [map]; constructor;
        [|exact IH].
      exists (converter_label (t_label t)). split; [reflexivity|].
      assert (forall tr row',
                 __get_audio_meta fs (row_of_trial t) = (tr, Ok row') ->
                 Series.get row' "Label"
                 = Some (VStr (converter_label (t_label t)))) as Hkeep.
      { intros tr row' H.
        apply get_audio_meta_ok_inv in H
          as (id & l & mi & q & d & _ & _ & _ & _ & _ & _ & ->).
        rewrite enriched_frame; [reflexivity|]. cbn. intuition discriminate. }
      unfold converter_label in *.
      destruct (t_label t =? "bonafide") eqn:E.
      * apply String.eqb_eq in E. repeat split; auto. intros Hne. contradiction.
      * apply String.eqb_neq in E. repeat split; auto. intros He. contradiction.
  - intros name h rows Hw.
    apply main_writes_inv in Hw as (_ & _ & Hrows & _).
    eapply Forall2_impl; [|exact Hrows].
    intros t cells (id & mi & d & a & sp & _ & _ & _ & _ & ->). reflexivity.
Qed.

Lemma label_is_real_or_fake_witness :
  (exists rows,
      read_protocol fs_dev dev_protocol
      = ([PrintHead (firstn 5 rows)], Ok rows) /\
      Forall2
        (fun t row =>
           exists lab,
             Series.get row "Label" = Some (VStr lab) /\
             (lab = "real" \/ lab = "fake") /\
             (t_label t = "bonafide" -> lab = "real") /\
             (t_label t <> "bonafide" -> lab = "fake") /\
             forall tr row',
               __get_audio_meta fs_dev row = (tr, Ok row') ->
               Series.get row' "Label" = Some (VStr lab))
        [trial_dev] rows) /\
  (forall name h rows,
      In (WriteCsv name h rows) (trace (main fs_dev)) ->
      Forall2
        (fun t cells =>
           nth 1 cells VNaN
           = VStr (if t_label t =? "bonafide" then "real" else "fake"))
        (all_trials fs_dev protocol_files) rows).
Proof.
  apply (label_is_real_or_fake fs_dev dev_protocol [trial_dev]). reflexivity.
Defined.

(** The test is on the exact characters: a lower-case "t_" or "d_" does
    not select the train or dev subset. *)
Example subset_is_case_sensitive :
  subset_of "LA_t_1000137" = ("ASVspoof2019_LA_eval", "test") /\
  subset_of "LA_d_1000137" = ("ASVspoof2019_LA_eval", "test") /\
  subset_of "LA_D_T_1" = ("ASVspoof2019_LA_train", "train").
Proof. repeat split. Qed.

(** C5.  The Proportion of an emitted row is one of "train", "valid",
    "test": "train" when "T_" occurs in the utterance ID of the protocol
    row, else "valid" when "D_" occurs in it, else "test". *)
Theorem proportion_by_substring (fs : filesystem) (row : Series.t)
  (id : string) (tr : list event) (row' : Series.t) :
  Series.get row "ID" = Some (VStr id) ->
  __get_audio_meta fs row = (tr, Ok row') ->
  exists p,
    Series.get row' "Proportion" = Some (VStr p) /\
    (p = "train" \/ p = "valid" \/ p = "test") /\
    (occurs "T_" id -> p = "train") /\
    (~ occurs "T_" id -> occurs "D_" id -> p = "valid") /\
    (~ occurs "T_" id -> ~ occurs "D_" id -> p = "test").
Proof.
  intros Hid H.
  apply get_audio_meta_ok_inv in H
    as (id' & l & mi & q & d & Hid' & _ & _ & _ & _ & _ & ->).
  rewrite Hid in Hid'. injection Hid' as <-.
  exists (snd (subset_of id)). split; [apply enriched_fields|].
  unfold subset_of.
  destruct (str_in "T_" id) eqn:ET; [|destruct (str_in "D_" id) eqn:ED];
    cbn [snd].
  - apply str_in_occurs in ET. repeat split; auto; intros; contradiction.
  - apply str_in_false in ET. apply str_in_occurs in ED.
    repeat split; auto; intros; contradiction.
  - apply str_in_false in ET. apply str_in_false in ED.
    repeat split; auto; intros; contradiction.
Qed.

Lemma proportion_by_substring_witness :
  exists p,
    Series.get (enriched (row_of_trial trial_dev) "LA_D_1047731" info_dev two)
      "Proportion" = Some (VStr p) /\
    (p = "train" \/ p = "valid" \/ p = "test") /\
    (occurs "T_" "LA_D_1047731" -> p = "train") /\
    (~ occurs "T_" "LA_D_1047731" -> occurs "D_" "LA_D_1047731"
     -> p = "valid") /\
    (~ occurs "T_" "LA_D_1047731" -> ~ occurs "D_" "LA_D_1047731"
     -> p = "test").
Proof.
  apply (proportion_by_substring fs_dev (row_of_trial trial_dev)
           "LA_D_1047731" []); reflexivity.
Defined.

(** *** The CSV file *)

(** C6.  The file a run writes is ASVspoof2019_LA.csv and its header is
    ID, Label, Duration, SampleRate, Path, Attack, Speaker, Proportion,
    AudioChannel, AudioEncoding, AudioBitSample, Language, in that order;
    "UN" is not among them.  So it is for every call of [write_csv] that
    writes the file, with one cell per header label in every line; what is
    written is the same for records that hold their columns in another
    order, and the same with or without an "UN" column in the records. *)
Theorem csv_header_is_fixed (fs : filesystem) (name : string)
  (h : list string) (rows : list (list value))
  (records records' : list Series.t) (tr : list event) :
  In (WriteCsv name h rows) (trace (main fs)) ->
  same_up_to_column_order records records' ->
  write_csv records = (tr, Ok tt) ->
  (name = "ASVspoof2019_LA.csv" /\
   h = [ "ID"; "Label"; "Duration"; "SampleRate"; "Path"; "Attack";
         "Speaker"; "Proportion"; "AudioChannel"; "AudioEncoding";
         "AudioBitSample"; "Language" ] /\
   ~ In "UN" h) /\
  (exists lines,
      tr = [ WriteCsv "ASVspoof2019_LA.csv"
               [ "ID"; "Label"; "Duration"; "SampleRate"; "Path"; "Attack";
                 "Speaker"; "Proportion"; "AudioChannel"; "AudioEncoding";
                 "AudioBitSample"; "Language" ]
               lines ] /\
      Forall (fun cells => List.length cells = 12%nat) lines) /\
  write_csv records' = (tr, Ok tt) /\
  write_csv (map (Series.drop "UN") records) = (tr, Ok tt).
Proof.
  intros Hrun Hperm Hw.
  assert (~ In "UN" header) as Hun.
  { cbn. intros H. repeat (destruct H as [H | H]; [discriminate|]). exact H. }
  apply main_writes_inv in Hrun as (-> & -> & _).
  split; [repeat split; exact Hun|].
  repeat split.
  - unfold write_csv, select in Hw.
    destruct (forallb (has_column records) header); cbn in Hw; [|discriminate].
    injection Hw as <-. eexists. split; [reflexivity|].
    apply Forall_map, Forall_forall. intros r _. reflexivity.
  - unfold write_csv in *. now rewrite (select_perm _ _ _ Hperm).
  - unfold write_csv in *. now rewrite (select_drop _ _ _ Hun).
Qed.

Lemma csv_header_is_fixed_witness :
  ("ASVspoof2019_LA.csv" = "ASVspoof2019_LA.csv" /\
   header
   = [ "ID"; "Label"; "Duration"; "SampleRate"; "Path"; "Attack";
       "Speaker"; "Proportion"; "AudioChannel"; "AudioEncoding";
       "AudioBitSample"; "Language" ] /\
   ~ In "UN" header) /\
  (exists lines,
      trace (write_csv records_ab)
      = [ WriteCsv "ASVspoof2019_LA.csv"
            [ "ID"; "Label"; "Duration"; "SampleRate"; "Path"; "Attack";
              "Speaker"; "Proportion"; "AudioChannel"; "AudioEncoding";
              "AudioBitSample"; "Language" ]
            lines ] /\
      Forall (fun cells => List.length cells = 12%nat) lines) /\
  write_csv records_ba = (trace (write_csv records_ab), Ok tt) /\
  write_csv (map (Series.drop "UN") records_ab)
  = (trace (write_csv records_ab), Ok tt).
Proof.
  apply (csv_header_is_fixed fs_dev "ASVspoof2019_LA.csv" header
           [csv_row trial_dev info_dev two] records_ab records_ba).
  - vm_compute. do 6 right. left. reflexivity.
  - unfold same_up_to_column_order, records_ba, records_ab. cbn [map].
    repeat (constructor; [split; [|apply Permutation_rev]|]); [| |constructor];
      cbn; repeat (constructor; [cbn; intuition discriminate|]); constructor.
  - reflexivity.
Defined.

(** *** Missing protocol files and the order of the lines *)

(** C7.  When the path built for a protocol file does not exist, the loop
    prints the two console lines (the path being processed, and the warning
    that it was not found) and goes on with the remaining protocol files,
    with the records collected so far unchanged; that protocol file adds no
    data line to the run. *)
Theorem missing_protocol_is_skipped (fs : filesystem) (name : string)
  (names : list string) (combined : list Series.t) :
  exists_ fs (protocol_path name) = false ->
  main_loop fs (name :: names) combined
  = (Print ("Processing protocol: " ++ protocol_path name)
       :: Print ("Warning: Protocol file " ++ protocol_path name
                 ++ " not found, skipping.")
       :: trace (main_loop fs names combined),
     outcome (main_loop fs names combined))
  /\ all_trials fs (name :: names) = all_trials fs names.
Proof.
  intros Hex. split.
  - cbn [main_loop]. fold (protocol_path name). rewrite Hex. cbn [negb].
    destruct (main_loop fs names combined) as [tr r]. reflexivity.
  - cbn [all_trials flat_map]. unfold lines_at, exists_ in *.
    destruct (fs (protocol_path name)); [discriminate | reflexivity].
Qed.

Lemma missing_protocol_is_skipped_witness :
  main_loop fs_dev protocol_files []
  = (Print ("Processing protocol: "
            ++ protocol_path "ASVspoof2019.LA.cm.train.trn.txt")
       :: Print ("Warning: Protocol file "
                 ++ protocol_path "ASVspoof2019.LA.cm.train.trn.txt"
                 ++ " not found, skipping.")
       :: trace (main_loop fs_dev (tl protocol_files) []),
     outcome (main_loop fs_dev (tl protocol_files) []))
  /\ all_trials fs_dev protocol_files = all_trials fs_dev (tl protocol_files).
Proof.
  apply (missing_protocol_is_skipped fs_dev
           "ASVspoof2019.LA.cm.train.trn.txt" (tl protocol_files) []).
  reflexivity.
Defined.



(** *** The line of the docstring *)

(** C9.  The line "LA_0069 LA_D_1047731 - - bonafide" of the dev protocol
    is read as the record [trial_dev] (four text fields and the label text
    "bonafide").  When the dev protocol holds it and its audio file exists
    with a header of 16000 samples per second and 32000 frames,
    [read_protocol] returns a row for it with Speaker "LA_0069", ID
    "LA_D_1047731" and Label "real", and the row function returns for that
    row a row with ID "ASV19LA-LA_D_1047731", Label "real", Duration 2.0 and
    Proportion "valid".  Every file the run writes has a line with these
    cells, and the run does write the file when the protocol files that
    exist have data lines and every data line has a text ID and an audio
    file whose header is read. *)
Theorem docstring_line_example (fs : filesystem) (lines : list trial)
  (mi : AudioMetaData) :
  fs dev_protocol = Some (Protocol lines) ->
  In trial_dev lines ->
  fs "./dataset/ASVspoof2019_LA/ASVspoof2019_LA_dev/flac/LA_D_1047731.flac"
  = Some (Flac mi) ->
  sample_rate mi = 16000%Z ->
  num_frames mi = 32000%Z ->
  text_line trial_dev = "LA_0069 LA_D_1047731 - - bonafide" /\
  (PyFloat.to_Q two == 2)%Q /\
  (exists tr rows row,
      read_protocol fs dev_protocol = (tr, Ok rows) /\
      In row rows /\
      Series.get row "Speaker" = Some (VStr "LA_0069") /\
      Series.get row "ID" = Some (VStr "LA_D_1047731") /\
      Series.get row "Label" = Some (VStr "real") /\
      exists tr' row',
        __get_audio_meta fs row = (tr', Ok row') /\
        Series.get row' "ID" = Some (VStr "ASV19LA-LA_D_1047731") /\
        Series.get row' "Label" = Some (VStr "real") /\
        Series.get row' "Duration" = Some (VFloat two) /\
        Series.get row' "Proportion" = Some (VStr "valid")) /\
  (forall name h rows,
      In (WriteCsv name h rows) (trace (main fs)) ->
      exists cells,
        In cells rows /\
        nth 0 cells VNaN = VStr "ASV19LA-LA_D_1047731" /\
        nth 1 cells VNaN = VStr "real" /\
        nth 2 cells VNaN = VFloat two /\
        nth 7 cells VNaN = VStr "valid") /\
  (Forall (fun name => absent_or_lines fs (protocol_path name))
     protocol_files ->
   all_probed fs (all_trials fs protocol_files) ->
   outcome (main fs) = Ok tt /\
   exists rows cells,
     In (WriteCsv "ASVspoof2019_LA.csv" header rows) (trace (main fs)) /\
     In cells rows /\
     nth 0 cells VNaN = VStr "ASV19LA-LA_D_1047731" /\
     nth 1 cells VNaN = VStr "real" /\
     nth 2 cells VNaN = VFloat two /\
     nth 7 cells VNaN = VStr "valid").
Proof.
  intros Hdev Hin Hfs Hsr Hnf.
  assert (PyFloat.truediv (num_frames mi) (sample_rate mi) = Ok two) as Hq
    by (rewrite Hsr, Hnf; reflexivity).
  assert (PyFloat.round2 two = Ok two) as Hd by reflexivity.
  assert (In trial_dev (all_trials fs protocol_files)) as Hall.
  { unfold all_trials, protocol_files. cbn [flat_map].
    rewrite !in_app_iff. right. left.
    unfold lines_at. fold dev_protocol. now rewrite Hdev. }
  assert (forall name h rows,
             In (WriteCsv name h rows) (trace (main fs)) ->
             exists cells,
               In cells rows /\
               nth 0 cells VNaN = VStr "ASV19LA-LA_D_1047731" /\
               nth 1 cells VNaN = VStr "real" /\
               nth 2 cells VNaN = VFloat two /\
               nth 7 cells VNaN = VStr "valid") as Hwritten.
  { intros name h rows Hw.
    apply main_writes_inv in Hw as (_ & _ & Hrows & _).
    destruct (Forall2_in_l _ _ _ _ Hrows Hall)
      as (cells & Hcells & id' & mi' & d' & a & sp & Hid'
          & (Hfs' & q' & Hq' & Hd') & _ & _ & ->).
    cbn in Hid'. injection Hid' as <-.
    change (audio_path "LA_D_1047731")
      with "./dataset/ASVspoof2019_LA/ASVspoof2019_LA_dev/flac/LA_D_1047731.flac"
      in Hfs'.
    rewrite Hfs in Hfs'. injection Hfs' as <-.
    rewrite Hq in Hq'. injection Hq' as <-.
    rewrite Hd in Hd'. injection Hd' as <-.
    eexists. split; [exact Hcells|]. repeat split; reflexivity. }
  split; [reflexivity|]. split; [reflexivity|]. split; [|split].
  - exists [PrintHead (firstn 5 (map row_of_trial lines))],
      (map row_of_trial lines), (row_of_trial trial_dev).
    split; [unfold read_protocol, read_csv; rewrite Hdev; reflexivity|].
    split; [now apply in_map|].
    repeat (split; [reflexivity|]).
    eexists _, _. split.
    + apply (get_audio_meta_present fs (row_of_trial trial_dev)
               "LA_D_1047731" (VStr "real") mi two two);
        try reflexivity; assumption.
    + repeat split; reflexivity.
  - exact Hwritten.
  - intros Hn Hp.
    assert (all_trials fs protocol_files <> []) as Hne
      by (intros E; rewrite E in Hall; destruct Hall).
    destruct (main_ok fs Hn Hp Hne) as (tr & rows & Hmain & Hw).
    assert (In (WriteCsv output_csv header rows) (trace (main fs))) as Hw'
      by (rewrite Hmain; exact Hw).
    split; [now rewrite Hmain|].
    destruct (Hwritten _ _ _ Hw') as (cells & Hcells & Hc).
    exists rows, cells. split; [exact Hw'|]. split; [exact Hcells | exact Hc].
Qed.

Lemma docstring_line_example_witness :
  text_line trial_dev = "LA_0069 LA_D_1047731 - - bonafide" /\
  (PyFloat.to_Q two == 2)%Q /\
  (exists tr rows row,
      read_protocol fs_dev dev_protocol = (tr, Ok rows) /\
      In row rows /\
      Series.get row "Speaker" = Some (VStr "LA_0069") /\
      Series.get row "ID" = Some (VStr "LA_D_1047731") /\
      Series.get row "Label" = Some (VStr "real") /\
      exists tr' row',
        __get_audio_meta fs_dev row = (tr', Ok row') /\
        Series.get row' "ID" = Some (VStr "ASV19LA-LA_D_1047731") /\
        Series.get row' "Label" = Some (VStr "real") /\
        Series.get row' "Duration" = Some (VFloat two) /\
        Series.get row' "Proportion" = Some (VStr "valid")) /\
  (forall name h rows,
      In (WriteCsv name h rows) (trace (main fs_dev)) ->
      exists cells,
        In cells rows /\
        nth 0 cells VNaN = VStr "ASV19LA-LA_D_1047731" /\
        nth 1 cells VNaN = VStr "real" /\
        nth 2 cells VNaN = VFloat two /\
        nth 7 cells VNaN = VStr "valid") /\
  (Forall (fun name => absent_or_lines fs_dev (protocol_path name))
     protocol_files ->
   all_probed fs_dev (all_trials fs_dev protocol_files) ->
   outcome (main fs_dev) = Ok tt /\
   exists rows cells,
     In (WriteCsv "ASVspoof2019_LA.csv" header rows) (trace (main fs_dev)) /\
     In cells rows /\
     nth 0 cells VNaN = VStr "ASV19LA-LA_D_1047731" /\
     nth 1 cells VNaN = VStr "real" /\
     nth 2 cells VNaN = VFloat two /\
     nth 7 cells VNaN = VStr "valid").
Proof.
  apply (docstring_line_example fs_dev [trial_dev] info_dev);
    try reflexivity.
  left. reflexivity.
Defined.

(** The run on the file system of the example does end normally and writes
    the line. *)
Example docstring_line_run :
  main fs_dev
  = ([ Print ("Processing protocol: "
              ++ protocol_path "ASVspoof2019.LA.cm.train.trn.txt");
       Print ("Warning: Protocol file "
              ++ protocol_path "ASVspoof2019.LA.cm.train.trn.txt"
              ++ " not found, skipping.");
       Print ("Processing protocol: " ++ dev_protocol);
       PrintHead [row_of_trial trial_dev];
       Print ("Processing protocol: "
              ++ protocol_path "ASVspoof2019.LA.cm.eval.trl.txt");
       Print ("Warning: Protocol file "
              ++ protocol_path "ASVspoof2019.LA.cm.eval.trl.txt"
              ++ " not found, skipping.");
       WriteCsv "ASVspoof2019_LA.csv" header
         [[ VStr "ASV19LA-LA_D_1047731"; VStr "real"; VFloat two;
            VInt 16000;
            VStr "$ROOT//ASVspoof2019_LA/ASVspoof2019_LA_dev/flac/LA_D_1047731.flac";
            VStr "-"; VStr "LA_0069"; VStr "valid"; VInt 1; VStr "FLAC";
            VInt 16; VStr "EN" ]];
       Print "Metadata CSV written to ASVspoof2019_LA.csv" ],
     Ok tt).
Proof. reflexivity. Qed.

(** *** What the row function leaves alone *)

(** C10.  A call of the row function that returns leaves every field alone
    but ID and the eight fields it adds, in particular Speaker, Attack and
    Label; the returned ID is the old one after the prefix "ASV19LA-", and
    Duration, SampleRate, Path, Proportion, AudioChannel, AudioEncoding,
    AudioBitSample and Language are present in the returned row. *)
Theorem enrichment_keeps_other_fields (fs : filesystem) (row : Series.t)
  (tr : list event) (row' : Series.t) :
  __get_audio_meta fs row = (tr, Ok row') ->
  (forall k,
      ~ In k [ "ID"; "Duration"; "SampleRate"; "Path"; "Proportion";
               "AudioChannel"; "AudioEncoding"; "AudioBitSample";
               "Language" ] ->
      Series.get row' k = Series.get row k) /\
  Series.get row' "Speaker" = Series.get row "Speaker" /\
  Series.get row' "Attack" = Series.get row "Attack" /\
  Series.get row' "Label" = Series.get row "Label" /\
  (exists id,
      Series.get row "ID" = Some (VStr id) /\
      Series.get row' "ID" = Some (VStr ("ASV19LA-" ++ id))) /\
  Forall (fun k => Series.get row' k <> None)
    [ "Duration"; "SampleRate"; "Path"; "Proportion"; "AudioChannel";
      "AudioEncoding"; "AudioBitSample"; "Language" ].
Proof.
  intros H.
  apply get_audio_meta_ok_inv in H
    as (id & l & mi & q & d & Hid & _ & _ & _ & _ & _ & ->).
  assert (forall k,
             ~ In k [ "ID"; "Duration"; "SampleRate"; "Path"; "Proportion";
                      "AudioChannel"; "AudioEncoding"; "AudioBitSample";
                      "Language" ] ->
             Series.get (enriched row id mi d) k = Series.get row k) as Hframe
    by (intros k; apply enriched_frame).
  split; [exact Hframe|].
  repeat split.
  - apply Hframe. cbn. intuition discriminate.
  - apply Hframe. cbn. intuition discriminate.
  - apply Hframe. cbn. intuition discriminate.
  - exists id. split; [exact Hid | apply enriched_fields].
  - destruct (enriched_fields row id mi d)
      as (_ & H1 & H2 & H3 & H4 & H5 & H6 & H7 & H8).
    repeat constructor; congruence.
Qed.

Lemma enrichment_keeps_other_fields_witness :
  (forall k,
      ~ In k [ "ID"; "Duration"; "SampleRate"; "Path"; "Proportion";
               "AudioChannel"; "AudioEncoding"; "AudioBitSample";
               "Language" ] ->
      Series.get (enriched (row_of_trial trial_dev) "LA_D_1047731"
                    info_dev two) k
      = Series.get (row_of_trial trial_dev) k) /\
  Series.get (enriched (row_of_trial trial_dev) "LA_D_1047731" info_dev two)
    "Speaker" = Series.get (row_of_trial trial_dev) "Speaker" /\
  Series.get (enriched (row_of_trial trial_dev) "LA_D_1047731" info_dev two)
    "Attack" = Series.get (row_of_trial trial_dev) "Attack" /\
  Series.get (enriched (row_of_trial trial_dev) "LA_D_1047731" info_dev two)
    "Label" = Series.get (row_of_trial trial_dev) "Label" /\
  (exists id,
      Series.get (row_of_trial trial_dev) "ID" = Some (VStr id) /\
      Series.get (enriched (row_of_trial trial_dev) "LA_D_1047731"
                    info_dev two) "ID"
      = Some (VStr ("ASV19LA-" ++ id))) /\
  Forall (fun k =>
            Series.get (enriched (row_of_trial trial_dev) "LA_D_1047731"
                          info_dev two) k <> None)
    [ "Duration"; "SampleRate"; "Path"; "Proportion"; "AudioChannel";
      "AudioEncoding"; "AudioBitSample"; "Language" ].
Proof.
  apply (enrichment_keeps_other_fields fs_dev (row_of_trial trial_dev) []).
  reflexivity.
Defined.

End Claims.

(** ** Further properties of the script *)

Module Extras.

Import PyStr Script Obs Examples More.
Import PyStrFacts SeriesFacts ScriptFacts.

(** *** The file is written once, at the very end *)

Lemma writes_app tr tr' : writes (tr ++ tr') = (writes tr + writes tr')%nat.
Proof.
  induction tr as [|[line|rows|name h rows] tr IH]; cbn; [reflexivity| | |];
    now rewrite IH.
Qed.

Lemma writes_console tr : Forall console tr -> writes tr = 0%nat.
Proof.
  induction 1 as [|[line|rows|name h rows] tr Hev _ IH]; cbn;
    [reflexivity | exact IH | exact IH | destruct Hev].
Qed.

Lemma writes_in tr name h rows :
  In (WriteCsv name h rows) tr -> (0 < writes tr)%nat.
Proof.
  induction tr as [|[line|rows'|name' h' rows'] tr IH]; cbn.
  - contradiction.
  - intros [H | H]; [discriminate | auto].
  - intros [H | H]; [discriminate | auto].
  - intros _. lia.
Qed.

Lemma main_shape fs :
  (exists tr0 out,
      main_loop fs protocol_files [] = (tr0, Ok out) /\
      forallb (has_column out) header = true /\
      main fs
      = ((tr0 ++ [ WriteCsv output_csv header
                     (map (fun r => map (stored_cell out r) header) out);
                   Print ("Metadata CSV written to " ++ output_csv) ])%list,
         Ok tt)) \/
  (exists e, outcome (main fs) = Raise e /\ Forall console (trace (main fs))).
Proof.
  unfold main.
  pose proof (main_loop_console fs protocol_files []) as Hc.
  destruct (main_loop fs protocol_files []) as [tr0 [out|e]] eqn:Hloop;
    cbn [trace fst] in Hc; cbn [bind].
  - unfold write_csv, select.
    destruct (forallb (has_column out) header) eqn:Hcols; cbn.
    + left. now exists tr0, out.
    + right. exists KeyError. split; [reflexivity|]. now rewrite app_nil_r.
  - right. now exists e.
Qed.

(** X1.  A run writes its CSV file exactly once, as the last thing before
    the closing console line, when it ends normally; a run that ends in an
    exception has written no file, whatever it had collected. *)
Theorem csv_written_once_or_never (fs : filesystem) :
  (outcome (main fs) = Ok tt /\
   writes (trace (main fs)) = 1%nat /\
   exists tr0 rows,
     trace (main fs)
     = (tr0 ++ [ WriteCsv "ASVspoof2019_LA.csv" header rows;
                 Print "Metadata CSV written to ASVspoof2019_LA.csv" ])%list
     /\ Forall console tr0) \/
  (exists e, outcome (main fs) = Raise e /\
             writes (trace (main fs)) = 0%nat).
Proof.
  destruct (main_shape fs) as [(tr0 & out & Hloop & _ & Hmain) | (e & He & Hc)].
  - left. rewrite Hmain. cbn [outcome trace fst snd].
    pose proof (main_loop_console fs protocol_files []) as Hc.
    rewrite Hloop in Hc. cbn [trace fst] in Hc.
    split; [reflexivity|]. split.
    + rewrite writes_app, (writes_console _ Hc). reflexivity.
    + eexists _, _. split; [reflexivity | exact Hc].
  - right. exists e. split; [exact He | now apply writes_console].
Qed.

(** *** When a run succeeds *)

Lemma sound_probed fs ts : all_sound fs ts -> all_probed fs ts.
Proof.
  unfold all_sound, all_probed. apply Forall_impl.
  intros t (id & mi & Hid & Hfs & Hrate & Hframes).
  destruct (PyFloatFacts.duration_defined _ _ Hrate Hframes)
    as (q & d & Hq & Hd).
  exists id, mi, d. split; [exact Hid|]. split; [exact Hfs | now exists q].
Qed.

(** X2.  A run ends normally and writes the CSV, one line per data line,
    whenever each of the three protocol paths is absent or a readable
    table with at least one data line, at least one of them exists, and
    every data line has an ID the reader keeps as text and names an
    existing audio file whose header has a non-zero sample rate (and a
    64-bit frame count). *)
Theorem run_succeeds (fs : filesystem) :
  Forall (fun name => absent_or_lines fs (protocol_path name))
    protocol_files ->
  Exists (fun name => exists_ fs (protocol_path name) = true)
    protocol_files ->
  all_sound fs (all_trials fs protocol_files) ->
  outcome (main fs) = Ok tt /\
  exists rows,
    In (WriteCsv "ASVspoof2019_LA.csv" header rows) (trace (main fs)) /\
    List.length rows = List.length (all_trials fs protocol_files).
Proof.
  intros Hn Hex Hs.
  assert (all_trials fs protocol_files <> []) as Hne.
  { apply Exists_exists in Hex as (name & Hin & Hname).
    rewrite Forall_forall in Hn. specialize (Hn name Hin).
    unfold exists_ in Hname.
    destruct Hn as [Hn | (t & lines & Hn)];
      [rewrite Hn in Hname; discriminate|].
    intros Hnil.
    assert (In t (all_trials fs protocol_files)) as Ht.
    { unfold all_trials. apply in_flat_map. exists name. split; [exact Hin|].
      unfold lines_at. rewrite Hn. now left. }
    rewrite Hnil in Ht. destruct Ht. }
  destruct (main_ok fs Hn (sound_probed _ _ Hs) Hne)
    as (tr & rows & Hmain & Hin).
  rewrite Hmain. cbn [outcome trace fst snd]. split; [reflexivity|].
  exists rows. split; [exact Hin|].
  assert (In (WriteCsv output_csv header rows) (trace (main fs))) as Hw
    by (rewrite Hmain; exact Hin).
  apply main_writes_inv in Hw as (_ & _ & H2 & _).
  symmetry. exact (Forall2_length H2).
Qed.

Lemma run_succeeds_witness :
  outcome (main fs_dev) = Ok tt /\
  exists rows,
    In (WriteCsv "ASVspoof2019_LA.csv" header rows) (trace (main fs_dev)) /\
    List.length rows = List.length (all_trials fs_dev protocol_files).
Proof.
  apply (run_succeeds fs_dev).
  - unfold protocol_files.
    constructor; [left; reflexivity|].
    constructor; [right; eexists _, _; reflexivity|].
    constructor; [left; reflexivity | constructor].
  - unfold protocol_files. right. left. reflexivity.
  - constructor; [|constructor]. exists "LA_D_1047731", info_dev.
    split; [reflexivity|]. split; [reflexivity|].
    split; [discriminate | reflexivity].
Defined.

(** X3.  Whenever the CSV is written, it has as many lines as the protocol
    files that exist have data lines together: the line counts of the train,
    dev and eval protocols add up, a protocol file that does not exist
    counting zero. *)
Theorem row_count_is_sum_of_line_counts (fs : filesystem) (name : string)
  (h : list string) (rows : list (list value)) :
  In (WriteCsv name h rows) (trace (main fs)) ->
  List.length rows
  = (List.length (lines_at fs (protocol_path "ASVspoof2019.LA.cm.train.trn.txt"))
     + List.length (lines_at fs (protocol_path "ASVspoof2019.LA.cm.dev.trl.txt"))
     + List.length (lines_at fs (protocol_path "ASVspoof2019.LA.cm.eval.trl.txt")))%nat
  /\ (forall name', exists_ fs (protocol_path name') = false ->
                    List.length (lines_at fs (protocol_path name')) = 0%nat).
Proof.
  intros H. split.
  - apply main_writes_inv in H as (_ & _ & H & _).
    apply Forall2_length in H. rewrite <- H.
    unfold all_trials, protocol_files. cbn [flat_map].
    rewrite !length_app. cbn [List.length]. lia.
  - intros name' Hex. unfold lines_at, exists_ in *.
    destruct (fs (protocol_path name')); [discriminate | reflexivity].
Qed.

Lemma row_count_is_sum_of_line_counts_witness :
  List.length [csv_row trial_dev info_dev two]
  = (List.length (lines_at fs_dev (protocol_path "ASVspoof2019.LA.cm.train.trn.txt"))
     + List.length (lines_at fs_dev (protocol_path "ASVspoof2019.LA.cm.dev.trl.txt"))
     + List.length (lines_at fs_dev (protocol_path "ASVspoof2019.LA.cm.eval.trl.txt")))%nat
  /\ (forall name', exists_ fs_dev (protocol_path name') = false ->
                    List.length (lines_at fs_dev (protocol_path name')) = 0%nat).
Proof.
  apply (row_count_is_sum_of_line_counts fs_dev output_csv header).
  vm_compute. do 6 right. left. reflexivity.
Defined.

(** X4.  When none of the three protocol files exists, the run prints the
    "Processing" line and the "not found" warning for each of them and then
    ends in a KeyError of the column selection: no file is written and the
    closing console line is not printed. *)
Theorem no_protocol_file_ends_in_key_error (fs : filesystem) :
  Forall (fun name => exists_ fs (protocol_path name) = false)
    protocol_files ->
  main fs
  = (flat_map
       (fun name =>
          [ Print ("Processing protocol: " ++ protocol_path name);
            Print ("Warning: Protocol file " ++ protocol_path name
                   ++ " not found, skipping.") ])
       protocol_files,
     Raise KeyError).
Proof.
  intros H. unfold protocol_files in H.
  inversion H as [|? ? H1 H']; subst. inversion H' as [|? ? H2 H'']; subst.
  inversion H'' as [|? ? H3 _]; subst. clear H H' H''.
  unfold main, protocol_files, main_loop.
  fold (protocol_path "ASVspoof2019.LA.cm.train.trn.txt").
  fold (protocol_path "ASVspoof2019.LA.cm.dev.trl.txt").
  fold (protocol_path "ASVspoof2019.LA.cm.eval.trl.txt").
  rewrite H1, H2, H3. reflexivity.
Qed.

Lemma no_protocol_file_ends_in_key_error_witness :
  main fs_empty
  = (flat_map
       (fun name =>
          [ Print ("Processing protocol: " ++ protocol_path name);
            Print ("Warning: Protocol file " ++ protocol_path name
                   ++ " not found, skipping.") ])
       protocol_files,
     Raise KeyError).
Proof.
  apply (no_protocol_file_ends_in_key_error fs_empty).
  repeat constructor.
Defined.

(** *** Rows that make the run fail *)

(** A data line whose row function ends in an exception ends the run. *)
Lemma failing_row_aborts fs t e :
  In t (all_trials fs protocol_files) ->
  outcome (__get_audio_meta fs (row_of_trial t)) = Raise e ->
  exists e', outcome (main fs) = Raise e' /\
             writes (trace (main fs)) = 0%nat.
Proof.
  intros Hin Hrow.
  destruct (main_shape fs) as [(tr0 & out & Hloop & _ & _) | (e' & He & Hc)].
  - apply main_loop_ok_inv in Hloop as (news & _ & Hnews).
    destruct (Claims.Forall2_in_l _ _ _ _ Hnews Hin)
      as (r & _ & tr & r0 & Hr & _).
    rewrite Hr in Hrow. discriminate.
  - exists e'. split; [exact He | now apply writes_console].
Qed.

(** X5.  A header that reports the sample rate 0 makes the row function end
    in a ZeroDivisionError, nothing printed (the ID of the line being text,
    as the path is built from it); when the line is one the run reads, the
    run ends in an exception and writes no file. *)
Theorem zero_sample_rate_aborts (fs : filesystem) (t : trial) (id : string)
  (mi : AudioMetaData) :
  In t (all_trials fs protocol_files) ->
  t_id t = VStr id ->
  fs (audio_path id) = Some (Flac mi) ->
  sample_rate mi = 0%Z ->
  __get_audio_meta fs (row_of_trial t) = ([], Raise ZeroDivisionError) /\
  exists e, outcome (main fs) = Raise e /\ writes (trace (main fs)) = 0%nat.
Proof.
  intros Hin Hid Hfs Hz.
  assert (__get_audio_meta fs (row_of_trial t) = ([], Raise ZeroDivisionError))
    as Hrow.
  { apply Claims.zero_sample_rate_raises
      with (id := id) (l := VStr (converter_label (t_label t))) (mi := mi);
      try assumption; [|reflexivity].
    cbn. now rewrite Hid. }
  split; [exact Hrow|].
  apply (failing_row_aborts fs t ZeroDivisionError Hin). now rewrite Hrow.
Qed.

Lemma zero_sample_rate_aborts_witness :
  __get_audio_meta fs_zero_rate (row_of_trial trial_dev)
  = ([], Raise ZeroDivisionError) /\
  exists e, outcome (main fs_zero_rate) = Raise e /\
            writes (trace (main fs_zero_rate)) = 0%nat.
Proof.
  apply (zero_sample_rate_aborts fs_zero_rate trial_dev "LA_D_1047731"
           info_zero_rate).
  - vm_compute. left. reflexivity.
  - reflexivity.
  - reflexivity.
  - reflexivity.
Defined.

(** X6.  A row without an "ID", with an "ID" that is no text (a column read
    as numbers), or without a "Label" makes the row function end in
    KeyError, TypeError, KeyError, before it prints anything or looks at
    any file; a frame with such a row makes [collect_audio_metadata] end
    in an exception. *)
Theorem malformed_row_raises (fs : filesystem) (row : Series.t) (e : exn)
  (rows rows' : list Series.t) :
  row_error row = Some e ->
  __get_audio_meta fs row = ([], Raise e) /\
  (e = KeyError \/ e = TypeError) /\
  exists e', outcome (collect_audio_metadata fs (rows ++ row :: rows'))
             = Raise e'.
Proof.
  intros He.
  assert (__get_audio_meta fs row = ([], Raise e)) as Hrow.
  { unfold row_error in He. unfold __get_audio_meta, getitem.
    destruct (Series.get row "ID") as [[id|z|d|b|]|]; cbn [bind ret raise];
      try (injection He as <-; reflexivity).
    destruct (subset_of id) as [subset subset_id].
    destruct (Series.get row "Label"); [discriminate|].
    injection He as <-. reflexivity. }
  split; [exact Hrow|]. split.
  - unfold row_error in He.
    destruct (Series.get row "ID") as [[id|z|d|b|]|];
      try (injection He as <-; auto).
    destruct (Series.get row "Label"); [discriminate|].
    injection He as <-. auto.
  - unfold collect_audio_metadata.
    assert (exists e', outcome (map_rows (__get_audio_meta fs)
                                  (rows ++ row :: rows')) = Raise e') as Hm.
    { induction rows as [|r rows IH]; cbn [app map_rows].
      - rewrite Hrow. now exists e.
      - destruct (__get_audio_meta fs r) as [tr [r'|e1]]; [|now exists e1].
        cbn [bind]. destruct IH as (e' & IH).
        destruct (map_rows _ (rows ++ row :: rows')) as [tr' res].
        cbn in IH. subst res. now exists e'. }
    unfold parallel_apply.
    destruct (rows ++ row :: rows')%list eqn:E; [|exact Hm].
    now destruct rows.
Qed.

Lemma malformed_row_raises_witness :
  __get_audio_meta fs_dev row_numeric_id = ([], Raise TypeError) /\
  (TypeError = KeyError \/ TypeError = TypeError) /\
  exists e', outcome (collect_audio_metadata fs_dev
                        ([row_of_trial trial_dev] ++ row_numeric_id
                           :: [row_no_label]))
             = Raise e'.
Proof.
  apply (malformed_row_raises fs_dev row_numeric_id TypeError
           [row_of_trial trial_dev] [row_no_label]).
  reflexivity.
Defined.

(** X16.  A protocol file that exists and has no data line ends the run:
    [collect_audio_metadata] raises a ValueError on the frame without rows,
    nothing printed, and the run ends in an exception and writes no
    file. *)
Theorem empty_protocol_file_aborts (fs : filesystem) (name : string) :
  In name protocol_files ->
  fs (protocol_path name) = Some (Protocol []) ->
  collect_audio_metadata fs [] = ([], Raise ValueError) /\
  exists e, outcome (main fs) = Raise e /\ writes (trace (main fs)) = 0%nat.
Proof.
  intros Hin Hfs. split; [reflexivity|].
  destruct (main_shape fs) as [(tr0 & out & Hloop & _ & _) | (e & He & Hc)].
  - apply main_loop_ok_lines in Hloop. rewrite Forall_forall in Hloop.
    destruct (Hloop name Hin) as [H | (t & lines & H)];
      rewrite Hfs in H; discriminate.
  - exists e. split; [exact He | now apply writes_console].
Qed.

Lemma empty_protocol_file_aborts_witness :
  collect_audio_metadata fs_no_lines [] = ([], Raise ValueError) /\
  exists e, outcome (main fs_no_lines) = Raise e /\
            writes (trace (main fs_no_lines)) = 0%nat.
Proof.
  apply (empty_protocol_file_aborts fs_no_lines
           "ASVspoof2019.LA.cm.dev.trl.txt").
  - right. left. reflexivity.
  - reflexivity.
Defined.

(** On that file system the exception is the ValueError, raised after the
    head of the empty frame was printed. *)
Example empty_protocol_run :
  main fs_no_lines
  = ([ Print ("Processing protocol: "
              ++ protocol_path "ASVspoof2019.LA.cm.train.trn.txt");
       Print ("Warning: Protocol file "
              ++ protocol_path "ASVspoof2019.LA.cm.train.trn.txt"
              ++ " not found, skipping.");
       Print ("Processing protocol: " ++ dev_protocol);
       PrintHead [] ],
     Raise ValueError).
Proof. reflexivity. Qed.

(** *** Several channels *)

(** X7.  For an audio file with more than one channel the row function
    prints the "multiple channels" warning and nothing else, for a file
    with one channel (or fewer) it prints nothing; in both cases the row is
    returned and its AudioChannel is the channel count of the header. *)
Theorem multichannel_is_warned_and_kept (fs : filesystem) (row : Series.t)
  (id : string) (l : value) (mi : AudioMetaData) :
  Series.get row "ID" = Some (VStr id) ->
  Series.get row "Label" = Some l ->
  fs (audio_path id) = Some (Flac mi) ->
  sound_header mi ->
  exists row',
    __get_audio_meta fs row
    = ((if (1 <? num_channels mi)%Z
        then [Print ("Warning: File " ++ audio_path id
                     ++ " has multiple channels.")]
        else []),
       Ok row') /\
    Series.get row' "AudioChannel" = Some (VInt (num_channels mi)).
Proof.
  intros Hid Hl Hfs [Hrate Hframes].
  destruct (PyFloatFacts.duration_defined _ _ Hrate Hframes)
    as (q & d & Hq & Hd).
  exists (enriched row id mi d). split.
  - exact (get_audio_meta_present fs row id l mi q d Hid Hl Hfs Hq Hd).
  - apply Claims.enriched_fields.
Qed.

Lemma multichannel_is_warned_and_kept_witness :
  exists row',
    __get_audio_meta fs_stereo (row_of_trial trial_dev)
    = ([Print ("Warning: File " ++ audio_path "LA_D_1047731"
               ++ " has multiple channels.")],
       Ok row') /\
    Series.get row' "AudioChannel" = Some (VInt 2).
Proof.
  apply (multichannel_is_warned_and_kept fs_stereo (row_of_trial trial_dev)
           "LA_D_1047731" (VStr "real") info_stereo);
    try reflexivity.
  split; [discriminate | reflexivity].
Defined.

(** *** Utterance IDs that are absolute paths *)

(** X8.  For an utterance ID that starts with "/" the path join drops the
    data folder, the subset directory and "flac": the audio file looked for
    is <ID>.flac itself, outside the dataset. *)
Theorem absolute_id_leaves_data_folder (id : string) :
  startswith id "/" = true ->
  audio_path id = id ++ ".flac" /\
  startswith (audio_path id) data_folder = false.
Proof.
  intros H.
  assert (audio_path id = id ++ ".flac") as Hp.
  { unfold audio_path, os_path_join. cbn [fold_left]. unfold join2 at 1.
    destruct id as [|c id]; [discriminate|].
    change (String c id ++ ".flac") with (String c (id ++ ".flac")).
    cbn [startswith] in *. now rewrite H. }
  split; [exact Hp|]. rewrite Hp.
  destruct id as [|c id]; [discriminate|].
  cbn [startswith] in H. apply andb_true_iff in H as [Hc _].
  apply Ascii.eqb_eq in Hc. subst c. reflexivity.
Qed.

Lemma absolute_id_leaves_data_folder_witness :
  audio_path "/tmp/LA_T_1" = "/tmp/LA_T_1" ++ ".flac" /\
  startswith (audio_path "/tmp/LA_T_1") data_folder = false.
Proof.
  apply (absolute_id_leaves_data_folder "/tmp/LA_T_1"). reflexivity.
Defined.

Lemma append_assoc (a b c : string) : (a ++ b) ++ c = a ++ b ++ c.
Proof. induction a as [|x a IH]; cbn; [reflexivity | now rewrite IH]. Qed.

Lemma join2_keeps_last (path b : string) : exists pre, join2 path b = pre ++ b.
Proof.
  unfold join2. destruct (startswith b "/"); [now exists ""|].
  destruct ((path =? "") || endswith path "/"); [now exists path|].
  exists (path ++ "/"). now rewrite append_assoc.
Qed.

(** X15.  Whatever the utterance ID looks like, the audio file the row
    function looks for is named <ID>.flac: its path is some directory
    prefix followed by the ID and ".flac". *)
Theorem audio_file_is_named_after_id (id : string) :
  exists pre, audio_path id = pre ++ id ++ ".flac".
Proof.
  unfold audio_path, os_path_join. cbn [fold_left]. apply join2_keeps_last.
Qed.

(** *** The column selection of [write_csv] *)

Lemma has_column_covers records k :
  has_column records k = true <-> covers records k.
Proof.
  unfold has_column, frame_columns, covers.
  rewrite existsb_exists. split.
  - intros (x & Hin & Heq). apply String.eqb_eq in Heq. subst x.
    apply in_flat_map in Hin as (r & Hr & Hk). now exists r.
  - intros (r & Hr & Hk). exists k. split; [|apply String.eqb_refl].
    apply in_flat_map. now exists r.
Qed.

(** X9.  [write_csv] writes the file, one line of twelve cells per record,
    exactly when each of the twelve header labels is a column of at least
    one record; otherwise (so for an empty list of records) it ends in a
    KeyError and writes nothing. *)
Theorem write_csv_needs_every_column (records : list Series.t) :
  (Forall (covers records) header /\
   exists rows,
     write_csv records = ([WriteCsv "ASVspoof2019_LA.csv" header rows], Ok tt)
     /\ List.length rows = List.length records
     /\ Forall (fun cells => List.length cells = 12%nat) rows) \/
  (Exists (fun k => ~ covers records k) header /\
   write_csv records = ([], Raise KeyError)).
Proof.
  unfold write_csv, select.
  destruct (forallb (has_column records) header) eqn:E.
  - left. split.
    + rewrite forallb_forall in E. apply Forall_forall. intros k Hk.
      apply has_column_covers. now apply E.
    + eexists. split; [reflexivity|]. split; [apply length_map|].
      apply Forall_map, Forall_forall. intros r _. reflexivity.
  - right. split; [|reflexivity].
    apply Exists_exists.
    assert (exists k, In k header /\ has_column records k = false)
      as (k & Hk & Hf).
    { clear - E. induction header as [|k ks IH]; [discriminate|].
      cbn in E. apply andb_false_iff in E as [E | E].
      - exists k. split; [now left | exact E].
      - destruct (IH E) as (k' & Hk' & Hf). exists k'. split; [now right | exact Hf]. }
    exists k. split; [exact Hk|]. intros Hc.
    apply has_column_covers in Hc. congruence.
Qed.

(** *** The lines of the file *)

(** X10.  Every line of a file the run writes has twelve cells, and the
    ten cells the row function sets are never a fill value: ID, Label,
    Path, Proportion and AudioEncoding are text, Duration is a float (the
    value -1 of a missing audio file is never written), SampleRate,
    AudioChannel and AudioBitSample are integers and Language is "EN".
    The Attack and Speaker cells are the cells of the reader, as the frame
    stores them. *)
Theorem written_lines_are_complete (fs : filesystem) (name : string)
  (h : list string) (rows : list (list value)) :
  In (WriteCsv name h rows) (trace (main fs)) ->
  Forall2
    (fun t cells =>
       List.length cells = 12%nat /\
       (exists id, nth 0 cells VNaN = VStr id) /\
       (exists l, nth 1 cells VNaN = VStr l) /\
       (exists d, nth 2 cells VNaN = VFloat d) /\
       (exists z, nth 3 cells VNaN = VInt z) /\
       (exists p, nth 4 cells VNaN = VStr p) /\
       stored (t_attack t) (nth 5 cells VNaN) /\
       stored (t_speaker t) (nth 6 cells VNaN) /\
       (exists s, nth 7 cells VNaN = VStr s) /\
       (exists z, nth 8 cells VNaN = VInt z) /\
       (exists e, nth 9 cells VNaN = VStr e) /\
       (exists z, nth 10 cells VNaN = VInt z) /\
       nth 11 cells VNaN = VStr "EN")
    (all_trials fs protocol_files) rows.
Proof.
  intros H. apply main_writes_inv in H as (_ & _ & H & _).
  eapply Forall2_impl; [|exact H].
  intros t cells (id & mi & d & a & sp & _ & _ & Ha & Hs & ->).
  cbn [csv_cells nth List.length].
  split; [reflexivity|].
  repeat (split; [solve [eexists; reflexivity | assumption]|]).
  reflexivity.
Qed.

Lemma written_lines_are_complete_witness :
  Forall2
    (fun t cells =>
       List.length cells = 12%nat /\
       (exists id, nth 0 cells VNaN = VStr id) /\
       (exists l, nth 1 cells VNaN = VStr l) /\
       (exists d, nth 2 cells VNaN = VFloat d) /\
       (exists z, nth 3 cells VNaN = VInt z) /\
       (exists p, nth 4 cells VNaN = VStr p) /\
       stored (t_attack t) (nth 5 cells VNaN) /\
       stored (t_speaker t) (nth 6 cells VNaN) /\
       (exists s, nth 7 cells VNaN = VStr s) /\
       (exists z, nth 8 cells VNaN = VInt z) /\
       (exists e, nth 9 cells VNaN = VStr e) /\
       (exists z, nth 10 cells VNaN = VInt z) /\
       nth 11 cells VNaN = VStr "EN")
    (all_trials fs_dev protocol_files) [csv_row trial_dev info_dev two].
Proof.
  apply (written_lines_are_complete fs_dev output_csv header).
  vm_compute. do 6 right. left. reflexivity.
Defined.

(** *** The rewritten path *)

(** What the rewrite puts out begins like what it read, for a beginning
    without the character "$". *)
Lemma replace_startswith (p s : string) :
  mentions "$" p = false ->
  startswith (replace_from 0 "./dataset" "$ROOT/" s) p = true ->
  startswith s p = true.
Proof.
  revert s. induction p as [|a p IH]; intros s Hp; [reflexivity|].
  cbn [mentions] in Hp. apply orb_false_iff in Hp as [Ha Hp].
  destruct s as [|c s]; [discriminate|].
  cbn [replace_from].
  destruct (startswith (String c s) "./dataset").
  - cbn [append startswith]. rewrite Ha. discriminate.
  - cbn [startswith]. intros H. apply andb_true_iff in H as [H1 H2].
    rewrite H1. now apply IH.
Qed.

Lemma startswith_cons (c a : ascii) (s p : string) :
  startswith (String c s) (String a p) = Ascii.eqb a c && startswith s p.
Proof. reflexivity. Qed.

Lemma replace_from_clean (s : string) (k : nat) :
  str_in "./dataset" (replace_from k "./dataset" "$ROOT/" s) = false.
Proof.
  revert k. induction s as [|c s IH]; intros k; [reflexivity|].
  cbn [replace_from]. destruct k as [|k]; [|apply IH].
  destruct (startswith (String c s) "./dataset") eqn:E.
  - cbn -[replace_from]. apply IH.
  - cbn [str_in]. rewrite IH, orb_false_r.
    destruct (startswith (String c (replace_from 0 "./dataset" "$ROOT/" s))
                "./dataset") eqn:E'; [|reflexivity].
    change "./dataset" with (String "." "/dataset") in E, E'.
    rewrite startswith_cons in E, E'.
    apply andb_true_iff in E' as [Hc Hrest].
    apply replace_startswith in Hrest; [|reflexivity].
    rewrite Hc, Hrest in E. discriminate.
Qed.

(** X11.  The Path of a returned row never contains the root folder string
    "./dataset": every occurrence in the file path has been rewritten and
    the rewriting creates no new one. *)
Theorem path_never_names_root_folder (fs : filesystem) (row : Series.t)
  (tr : list event) (row' : Series.t) :
  __get_audio_meta fs row = (tr, Ok row') ->
  exists p,
    Series.get row' "Path" = Some (VStr p) /\
    ~ occurs "./dataset" p.
Proof.
  intros H.
  apply get_audio_meta_ok_inv in H
    as (id & l & mi & q & d & _ & _ & _ & _ & _ & _ & ->).
  exists (replace (audio_path id) root_folder "$ROOT/").
  split; [apply Claims.enriched_fields|].
  apply str_in_false. apply replace_from_clean.
Qed.

Lemma path_never_names_root_folder_witness :
  exists p,
    Series.get (enriched (row_of_trial trial_odd) "x./dataset" info_dev two)
      "Path" = Some (VStr p) /\
    ~ occurs "./dataset" p.
Proof.
  apply (path_never_names_root_folder fs_odd (row_of_trial trial_odd) []).
  reflexivity.
Defined.

(** *** The columns of a returned row *)

Lemma labels_set_present (row : Series.t) k v :
  In k (Series.labels row) -> Series.labels (Series.set row k v) = Series.labels row.
Proof.
  unfold Series.labels.
  induction row as [|[k0 v0] row IH]; cbn; [contradiction|].
  destruct (k0 =? k) eqn:E; cbn; [reflexivity|].
  apply String.eqb_neq in E. intros [H | H]; [contradiction|].
  now rewrite (IH H).
Qed.

Lemma labels_set_new (row : Series.t) k v :
  ~ In k (Series.labels row) ->
  Series.labels (Series.set row k v) = (Series.labels row ++ [k])%list.
Proof.
  unfold Series.labels.
  induction row as [|[k0 v0] row IH]; cbn; [reflexivity|].
  intros H. destruct (k0 =? k) eqn:E.
  - apply String.eqb_eq in E. subst k0. exfalso. apply H. now left.
  - cbn. rewrite IH; [reflexivity|]. intros Hin. apply H. now right.
Qed.

Lemma labels_set_new_eq (row : Series.t) k v ls :
  Series.labels row = ls -> ~ In k ls ->
  Series.labels (Series.set row k v) = (ls ++ [k])%list.
Proof. intros <-. apply labels_set_new. Qed.

Lemma get_some_label (row : Series.t) k v :
  Series.get row k = Some v -> In k (Series.labels row).
Proof.
  unfold Series.labels.
  induction row as [|[k0 v0] row IH]; cbn; [discriminate|].
  destruct (k0 =? k) eqn:E.
  - apply String.eqb_eq in E. now left.
  - intros H. right. now apply IH.
Qed.

(** X12.  In a returned row every column of the row passed in keeps its
    place, and the columns the row function adds follow in the order
    Duration, SampleRate, Path, Proportion, AudioChannel, AudioEncoding,
    AudioBitSample, Language (for a row that had none of them before). *)
Theorem added_columns_are_appended (fs : filesystem) (row : Series.t)
  (tr : list event) (row' : Series.t) :
  __get_audio_meta fs row = (tr, Ok row') ->
  Forall (fun k => ~ In k (Series.labels row)) added_labels ->
  Series.labels row' = (Series.labels row ++ added_labels)%list.
Proof.
  intros H Hnew.
  apply get_audio_meta_ok_inv in H
    as (id & l & mi & q & d & Hid & _ & _ & _ & _ & _ & ->).
  apply get_some_label in Hid.
  unfold added_labels in *.
  repeat match goal with
         | H : Forall _ (_ :: _) |- _ => inversion H; subst; clear H
         end.
  unfold enriched.
  replace (Series.labels row
           ++ [ "Duration"; "SampleRate"; "Path"; "Proportion";
                "AudioChannel"; "AudioEncoding"; "AudioBitSample";
                "Language" ])%list
    with ((((((((Series.labels row ++ ["Duration"]) ++ ["SampleRate"])
                ++ ["Path"]) ++ ["Proportion"]) ++ ["AudioChannel"])
             ++ ["AudioEncoding"]) ++ ["AudioBitSample"])
          ++ ["Language"])%list
    by (now rewrite <- !app_assoc).
  repeat (apply labels_set_new_eq;
          [|rewrite ?in_app_iff; cbn [In]; intuition discriminate]).
  now apply labels_set_present.
Qed.

Lemma added_columns_are_appended_witness :
  Series.labels (enriched (row_of_trial trial_dev) "LA_D_1047731" info_dev two)
  = (Series.labels (row_of_trial trial_dev) ++ added_labels)%list.
Proof.
  apply (added_columns_are_appended fs_dev (row_of_trial trial_dev) []).
  - reflexivity.
  - repeat (constructor; [cbn; intuition discriminate|]). constructor.
Defined.

(** *** Durations *)

Section Durations.

Import PyFloat PyFloatFacts.
Local Open Scope Z_scope.

(** The quotient of [k * b] by [b] is the value [k] itself. *)
Lemma nearest_exact s k b :
  0 < k < 2 ^ 53 -> 0 < b ->
  exists x, nearest s (k * b) b = Ok x /\ neg x = s /\
            ex x <= 0 /\ man x = k * 2 ^ (- ex x).
Proof.
  intros Hk Hb.
  assert (0 < k * b) as Ha by nia.
  unfold nearest.
  destruct (k * b =? 0) eqn:E0; [apply Z.eqb_eq in E0; lia|].
  set (e0 := Z.log2 (k * b) - Z.log2 b - 52).
  destruct (scaled (k * b) b e0) as [n0 d0] eqn:S0.
  set (e1 := if n0 / d0 <? 2 ^ 52 then e0 - 1 else e0).
  set (e := Z.max e1 emin).
  destruct (scaled (k * b) b e) as [n d] eqn:S.
  destruct (scaled_pos _ _ _ _ _ Ha Hb S0) as [Hn0 Hd0].
  destruct (scaled_pos _ _ _ _ _ Ha Hb S) as [Hn Hd].
  (* the exponent is not positive *)
  assert (e1 <= 0) as He1.
  { destruct (Z.le_gt_cases e1 0) as [|Hpos]; [assumption|]. exfalso.
    unfold e1 in Hpos. destruct (n0 / d0 <? 2 ^ 52) eqn:E.
    - assert (2 <= e0) as He0 by lia. unfold e0 in He0.
      pose proof (Z.log2_spec _ Ha) as [Hal _].
      pose proof (Z.log2_spec _ Hb) as [_ Hbu].
      pose proof (Z.log2_nonneg b) as Hlb.
      assert (2 ^ (Z.log2 b + 54) <= 2 ^ Z.log2 (k * b))
        by (apply Z.pow_le_mono_r; lia).
      replace (Z.log2 b + 54) with (Z.succ (Z.log2 b) + 53) in H by lia.
      rewrite Z.pow_add_r in H by lia.
      assert (0 < 2 ^ 53) by reflexivity.
      assert (k * b < 2 ^ 53 * b) by nia.
      nia.
    - apply Z.ltb_ge in E.
      unfold scaled in S0.
      destruct (0 <=? e0) eqn:E'; [|apply Z.leb_gt in E'; lia].
      injection S0 as <- <-.
      assert (2 <= 2 ^ e0).
      { change 2 with (2 ^ 1) at 1. apply Z.pow_le_mono_r; lia. }
      assert (0 < b * 2 ^ e0) by nia.
      assert (2 ^ 52 * (b * 2 ^ e0) <= k * b).
      { apply Z.le_trans with (b * 2 ^ e0 * (k * b / (b * 2 ^ e0))).
        - rewrite (Z.mul_comm (2 ^ 52)). apply Z.mul_le_mono_nonneg_l; lia.
        - apply Z.mul_div_le. lia. }
      assert (0 < 2 ^ 52) by reflexivity.
      change (2 ^ 53) with (2 ^ 52 * 2) in Hk. nia. }
  assert (e <= 0) as He by (unfold e, emin; lia).
  assert (n = k * 2 ^ (- e) * d) as Hnd.
  { unfold scaled in S. destruct (0 <=? e) eqn:E'; injection S as <- <-.
    - apply Z.leb_le in E'. assert (e = 0) as -> by lia. cbn. lia.
    - lia. }
  assert (0 <= 2 ^ (- e)) by (apply Z.pow_nonneg; lia).
  assert (round_half_even n d = k * 2 ^ (- e)) as Hm.
  { unfold round_half_even. rewrite Hnd, Z.div_mul, Z.mod_mul by lia.
    replace (2 * 0 <? d) with true by (symmetry; apply Z.ltb_lt; lia).
    reflexivity. }
  (* below 2^53, by the choice of the exponent *)
  assert (n / d < 2 ^ 53) as Hq.
  { apply div_lt_iff; [lia | assumption |].
    apply (scaled_below _ _ _ _ _ _ Ha Hb S).
    apply below_mono with e1; try assumption; [reflexivity | unfold e; lia |].
    unfold e1. destruct (n0 / d0 <? 2 ^ 52) eqn:E.
    - apply below_half; try assumption.
      apply (scaled_below _ _ _ _ _ _ Ha Hb S0).
      apply div_lt_iff; [lia | assumption |]. now apply Z.ltb_lt.
    - now apply below_e0. }
  rewrite Hnd, Z.div_mul in Hq by lia.
  rewrite Hm.
  destruct (k * 2 ^ (- e) =? 2 ^ 53) eqn:Em; [apply Z.eqb_eq in Em; lia|].
  destruct (emax <? e) eqn:Ee; [apply Z.ltb_lt in Ee; unfold emax in Ee; lia|].
  eexists. split; [reflexivity|]. cbn [neg man ex]. repeat split; lia.
Qed.

Lemma to_Q_exact x k :
  neg x = false -> ex x <= 0 -> man x = k * 2 ^ (- ex x) ->
  (to_Q x == inject_Z k)%Q.
Proof.
  intros Hs He Hm. unfold to_Q. rewrite Hs.
  destruct (0 <=? ex x) eqn:E.
  - apply Z.leb_le in E. assert (ex x = 0) as H0 by lia.
    rewrite Hm, H0. cbn. rewrite !Z.mul_1_r. reflexivity.
  - apply Z.leb_gt in E. unfold Qeq. cbn [Qnum Qden inject_Z].
    rewrite Z2Pos.id by (apply Z.pow_pos_nonneg; lia). lia.
Qed.

Lemma round2_exact x k :
  0 < k < 2 ^ 53 -> ex x <= 0 -> man x = k * 2 ^ (- ex x) ->
  exists d, round2 x = Ok d /\ neg d = neg x /\
            ex d <= 0 /\ man d = k * 2 ^ (- ex d).
Proof.
  intros Hk He Hm. unfold round2.
  assert (0 < 2 ^ (- ex x)) as Hp by (apply Z.pow_pos_nonneg; lia).
  assert (scaled (man x * 100) 1 (- ex x)
          = (k * 100 * 2 ^ (- ex x), 2 ^ (- ex x))) as ->.
  { unfold scaled. rewrite (proj2 (Z.leb_le 0 (- ex x))) by lia.
    rewrite Hm, Z.mul_1_l. f_equal. lia. }
  assert (round_half_even (k * 100 * 2 ^ (- ex x)) (2 ^ (- ex x)) = k * 100)
    as ->.
  { unfold round_half_even. rewrite Z.div_mul, Z.mod_mul by lia.
    replace (2 * 0 <? 2 ^ (- ex x)) with true
      by (symmetry; apply Z.ltb_lt; lia).
    reflexivity. }
  destruct (nearest_exact (neg x) k 100 Hk ltac:(lia)) as (d & Hd & Hs & H1 & H2).
  exists d. now repeat split.
Qed.

Lemma whole_seconds k rate :
  0 < rate -> 0 <= k < 2 ^ 53 ->
  exists q d, truediv (k * rate) rate = Ok q /\ round2 q = Ok d /\
              (to_Q d == inject_Z k)%Q.
Proof.
  intros Hr Hk.
  destruct (Z.eq_dec k 0) as [->|Hne].
  - unfold truediv. rewrite (proj2 (Z.eqb_neq rate 0)) by lia.
    rewrite Z.mul_0_l. cbn [Z.ltb Z.compare Z.abs].
    replace (rate <? 0) with false by (symmetry; apply Z.ltb_ge; lia).
    eexists _, _. split; [reflexivity|]. split; reflexivity.
  - unfold truediv. rewrite (proj2 (Z.eqb_neq rate 0)) by lia.
    replace (k * rate <? 0) with false by (symmetry; apply Z.ltb_ge; nia).
    replace (rate <? 0) with false by (symmetry; apply Z.ltb_ge; lia).
    rewrite !Z.abs_eq by nia. cbn [xorb].
    destruct (nearest_exact false k rate ltac:(lia) Hr)
      as (q & Hq & Hs & He & Hm).
    destruct (round2_exact q k ltac:(lia) He Hm) as (d & Hd & Hs' & He' & Hm').
    exists q, d. split; [exact Hq|]. split; [exact Hd|].
    apply to_Q_exact; congruence.
Qed.

(** The duration computed from a frame count that is not negative and a
    positive sample rate is a finite binary64 value that is not negative. *)
Lemma duration_is_finite frames rate q d :
  0 <= frames -> 0 < rate ->
  truediv frames rate = Ok q -> round2 q = Ok d ->
  neg d = false /\ 0 <= man d < 2 ^ 53 /\ emin <= ex d <= emax.
Proof.
  intros Hf Hr Hq Hd.
  assert (neg q = false /\ 0 <= man q) as [Hs Hm].
  { unfold truediv in Hq. rewrite (proj2 (Z.eqb_neq rate 0)) in Hq by lia.
    replace (frames <? 0) with false in Hq by (symmetry; apply Z.ltb_ge; lia).
    replace (rate <? 0) with false in Hq by (symmetry; apply Z.ltb_ge; lia).
    rewrite !Z.abs_eq in Hq by lia. cbn [xorb] in Hq.
    destruct (Z.eq_dec frames 0) as [->|Hne].
    - cbn in Hq. injection Hq as <-. cbn. split; [reflexivity | lia].
    - apply nearest_wf in Hq as (H1 & H2 & _); [|lia|lia]. split; [exact H1 | lia]. }
  unfold round2 in Hd. rewrite Hs in Hd.
  destruct (scaled (man q * 100) 1 (- ex q)) as [n dn] eqn:S.
  assert (0 <= n /\ 0 < dn) as [Hn Hdn].
  { unfold scaled in S. rewrite Z.mul_1_l in S.
    destruct (0 <=? - ex q) eqn:E; injection S as <- <-.
    - apply Z.leb_le in E. split; [lia | apply Z.pow_pos_nonneg; lia].
    - apply Z.leb_gt in E. split; [|lia].
      apply Z.mul_nonneg_nonneg; [lia | apply Z.pow_nonneg; lia]. }
  pose proof (round_half_even_bounds n dn Hn Hdn) as Ht.
  pose proof (Z.div_pos n dn Hn Hdn) as Hq0.
  destruct (Z.eq_dec (round_half_even n dn) 0) as [Hz|Hne].
  - rewrite Hz in Hd. cbn in Hd. injection Hd as <-. cbn.
    unfold emin, emax. repeat split; lia.
  - apply nearest_wf in Hd as (H1 & H2 & H3 & _); [|lia|lia].
    now repeat split.
Qed.

End Durations.

(** X13.  For an audio file whose frame count is a whole multiple [k] of
    its positive sample rate (a file of exactly [k] seconds, [k] below
    2^53), the Duration of the returned row is the float of value [k]
    exactly: neither the division nor the rounding to two decimals
    changes it. *)
Theorem whole_seconds_are_exact (fs : filesystem) (row : Series.t)
  (id : string) (l : value) (mi : AudioMetaData) (k : Z) :
  Series.get row "ID" = Some (VStr id) ->
  Series.get row "Label" = Some l ->
  fs (audio_path id) = Some (Flac mi) ->
  (0 < sample_rate mi)%Z ->
  (0 <= k < 2 ^ 53)%Z ->
  num_frames mi = (k * sample_rate mi)%Z ->
  exists tr row' d,
    __get_audio_meta fs row = (tr, Ok row') /\
    Series.get row' "Duration" = Some (VFloat d) /\
    (PyFloat.to_Q d == inject_Z k)%Q.
Proof.
  intros Hid Hl Hfs Hrate Hk Hframes.
  destruct (whole_seconds k (sample_rate mi) Hrate Hk) as (q & d & Hq & Hd & Hv).
  rewrite <- Hframes in Hq.
  exists (multichannel_warning id mi), (enriched row id mi d), d.
  split; [exact (get_audio_meta_present fs row id l mi q d Hid Hl Hfs Hq Hd)|].
  split; [apply Claims.enriched_fields | exact Hv].
Qed.

Lemma whole_seconds_are_exact_witness :
  exists tr row' d,
    __get_audio_meta fs_stereo (row_of_trial trial_dev) = (tr, Ok row') /\
    Series.get row' "Duration" = Some (VFloat d) /\
    (PyFloat.to_Q d == inject_Z 10)%Q.
Proof.
  apply (whole_seconds_are_exact fs_stereo (row_of_trial trial_dev)
           "LA_D_1047731" (VStr "real") info_stereo 10);
    try reflexivity.
  split; [discriminate | reflexivity].
Defined.

(** X14.  For an audio file with a frame count that is not negative and a
    positive sample rate, the Duration of the returned row is a finite
    binary64 value that is not negative (so it is never the value -1 that
    marks a missing file). *)
Theorem duration_is_not_negative (fs : filesystem) (row : Series.t)
  (id : string) (mi : AudioMetaData) (tr : list event) (row' : Series.t) :
  Series.get row "ID" = Some (VStr id) ->
  fs (audio_path id) = Some (Flac mi) ->
  (0 <= num_frames mi)%Z ->
  (0 < sample_rate mi)%Z ->
  __get_audio_meta fs row = (tr, Ok row') ->
  exists d,
    Series.get row' "Duration" = Some (VFloat d) /\
    PyFloat.neg d = false /\
    (0 <= PyFloat.man d < 2 ^ 53)%Z /\
    (PyFloat.emin <= PyFloat.ex d <= PyFloat.emax)%Z.
Proof.
  intros Hid Hfs Hframes Hrate H.
  apply get_audio_meta_ok_inv in H
    as (id' & l & mi' & q & d & Hid' & _ & Hfs' & Hq & Hd & _ & ->).
  rewrite Hid in Hid'. injection Hid' as <-.
  rewrite Hfs in Hfs'. injection Hfs' as <-.
  exists d. split; [apply Claims.enriched_fields|].
  exact (duration_is_finite _ _ q d Hframes Hrate Hq Hd).
Qed.

Lemma duration_is_not_negative_witness :
  exists d,
    Series.get (enriched (row_of_trial trial_dev) "LA_D_1047731" info_dev two)
      "Duration" = Some (VFloat d) /\
    PyFloat.neg d = false /\
    (0 <= PyFloat.man d < 2 ^ 53)%Z /\
    (PyFloat.emin <= PyFloat.ex d <= PyFloat.emax)%Z.
Proof.
  apply (duration_is_not_negative fs_dev (row_of_trial trial_dev)
           "LA_D_1047731" info_dev []);
    try reflexivity.
  discriminate.
Defined.

End Extras.
